(** * go-tracer: the span facade and the tracer lifecycle

    A shallow embedding of package [tracer] (span.go, tracer.go, grpc.go,
    options.go).  The package is a thin layer over OpenTelemetry and gRPC:
    the library values it handles (errors, attributes, dial options) are
    given as data types, the library objects it drives (the underlying
    [trace.Span], the tracer provider, the client connection) as an
    interface with several implementations or as recorded effects. *)

From Stdlib Require Import List String Ascii ZArith NArith Bool.
From Stdlib Require Import DecimalString.
From Stdlib Require DecimalN DecimalPos.
Import ListNotations.
Open Scope string_scope.
Set Warnings "-register-all".

(* ================================================================== *)
(** ** Go errors *)

(** google.golang.org/grpc/codes *)
Module grpccodes.
Inductive Code : Type :=
| OK | Canceled | Unknown | InvalidArgument | DeadlineExceeded | NotFound
| AlreadyExists | PermissionDenied | ResourceExhausted | FailedPrecondition
| Aborted | OutOfRange | Unimplemented | Internal | Unavailable | DataLoss
| Unauthenticated.

(** The numeric value of a code, as the library declares it. *)
Definition value (c : Code) : N :=
  match c with
  | OK => 0 | Canceled => 1 | Unknown => 2 | InvalidArgument => 3
  | DeadlineExceeded => 4 | NotFound => 5 | AlreadyExists => 6
  | PermissionDenied => 7 | ResourceExhausted => 8
  | FailedPrecondition => 9 | Aborted => 10 | OutOfRange => 11
  | Unimplemented => 12 | Internal => 13 | Unavailable => 14
  | DataLoss => 15 | Unauthenticated => 16
  end%N.

Definition eqb (a b : Code) : bool := N.eqb (value a) (value b).

Definition String (c : Code) : string :=
  match c with
  | OK => "OK" | Canceled => "Canceled" | Unknown => "Unknown"
  | InvalidArgument => "InvalidArgument"
  | DeadlineExceeded => "DeadlineExceeded" | NotFound => "NotFound"
  | AlreadyExists => "AlreadyExists"
  | PermissionDenied => "PermissionDenied"
  | ResourceExhausted => "ResourceExhausted"
  | FailedPrecondition => "FailedPrecondition" | Aborted => "Aborted"
  | OutOfRange => "OutOfRange" | Unimplemented => "Unimplemented"
  | Internal => "Internal" | Unavailable => "Unavailable"
  | DataLoss => "DataLoss" | Unauthenticated => "Unauthenticated"
  end.
End grpccodes.

(** The two sentinel errors of package context.  They are package-level
    values and [errors.Is] recognises them by identity. *)
Module context.
Inductive sentinel : Type := Canceled | DeadlineExceeded.

Definition sentinel_eqb (a b : sentinel) : bool :=
  match a, b with
  | Canceled, Canceled | DeadlineExceeded, DeadlineExceeded => true
  | _, _ => false
  end.

Definition text (t : sentinel) : string :=
  match t with
  | Canceled => "context canceled"
  | DeadlineExceeded => "context deadline exceeded"
  end.
End context.

(** A non-nil value of Go's [error] interface, by the concrete type that
    built it.  A possibly-nil [error] is an [option error]. *)
Inductive error : Type :=
| contextError (t : context.sentinel)
    (* context.Canceled, context.DeadlineExceeded *)
| errorString (s : string)
    (* errors.New(s); never identical to a sentinel *)
| statusError (c : grpccodes.Code) (msg : string)
    (* status.Error(c, msg), a value with a GRPCStatus method *)
| wrapError (msg : string) (err : error)
    (* fmt.Errorf with one %w verb: msg is the formatted text *)
| joinError (errs : list error).
    (* errors.Join over the non-nil errors errs *)

Definition newline : string := String (ascii_of_nat 10) "".

(** The method [Error() string]. *)
Fixpoint Error (e : error) : string :=
  match e with
  | contextError t => context.text t
  | errorString s => s
  | statusError c msg =>
      "rpc error: code = " ++ grpccodes.String c ++ " desc = " ++ msg
  | wrapError msg _ => msg
  | joinError errs => String.concat newline (map Error errs)
  end.

Module errors.
Definition New (s : string) : error := errorString s.

(** [errors.Is(err, target)] for a sentinel target: walk the tree that
    [Unwrap() error] and [Unwrap() []error] span, depth first, and
    compare each node with the target. *)
Fixpoint Is (err : error) (target : context.sentinel) : bool :=
  match err with
  | contextError t => context.sentinel_eqb t target
  | errorString _ => false
  | statusError _ _ => false
  | wrapError _ inner => Is inner target
  | joinError errs => existsb (fun e => Is e target) errs
  end.

(** [errors.Join(errs...)]: nil values are discarded, and the result is
    nil when nothing is left. *)
Definition Join (errs : list (option error)) : option error :=
  match flat_map (fun o => match o with Some e => [e] | None => [] end) errs
  with
  | [] => None
  | es => Some (joinError es)
  end.
End errors.

Module fmt.
(** [fmt.Errorf(prefix + "%w", err)]. *)
Definition Errorf_w (prefix : string) (err : error) : error :=
  wrapError (prefix ++ Error err) err.
End fmt.

(** google.golang.org/grpc/status *)
Module status.
(** The first error of the chain that carries a gRPC status
    ([errors.As] with the GRPCStatus interface), depth first. *)
Fixpoint grpcStatus (err : error) : option grpccodes.Code :=
  match err with
  | contextError _ => None
  | errorString _ => None
  | statusError c _ => Some c
  | wrapError _ inner => grpcStatus inner
  | joinError errs =>
      fold_right
        (fun e rest =>
           match grpcStatus e with Some c => Some c | None => rest end)
        None errs
  end.

(** [status.Code(err)]: OK for a nil error, the carried status code, and
    Unknown for an error that carries no status. *)
Definition Code (err : option error) : grpccodes.Code :=
  match err with
  | None => grpccodes.OK
  | Some e =>
      match grpcStatus e with
      | Some c => c
      | None => grpccodes.Unknown
      end
  end.
End status.

(* ================================================================== *)
(** ** The OpenTelemetry values the facade builds *)

(** go.opentelemetry.io/otel/codes: Unset = 0, Error = 1, Ok = 2. *)
Module codes.
Inductive Code : Type := Unset | Error | Ok.

Definition value (c : Code) : N :=
  match c with Unset => 0 | Error => 1 | Ok => 2 end%N.
End codes.

Module time.
(** An instant, in nanoseconds since the Unix epoch. *)
Definition Time : Type := Z.
(** A [time.Duration], a signed 64-bit count of nanoseconds. *)
Definition Duration : Type := Z.
End time.

(** A float64 is carried as its IEEE-754 bit pattern: the package passes
    such values on and never computes with them. *)
Definition float64 : Type := Z.

(** go.opentelemetry.io/otel/attribute *)
Module attribute.
Inductive Type_ : Type :=
| INVALID | BOOL | INT64 | FLOAT64 | STRING
| BOOLSLICE | INT64SLICE | FLOAT64SLICE | STRINGSLICE.

Inductive Value : Type :=
| BoolValue (v : bool)
| Int64Value (v : Z)
| Float64Value (v : float64)
| StringValue (v : string)
| Int64SliceValue (v : list Z)
| StringSliceValue (v : list string).

Definition Type_of (v : Value) : Type_ :=
  match v with
  | BoolValue _ => BOOL
  | Int64Value _ => INT64
  | Float64Value _ => FLOAT64
  | StringValue _ => STRING
  | Int64SliceValue _ => INT64SLICE
  | StringSliceValue _ => STRINGSLICE
  end.

Record KeyValue : Type := { Key : string; Val : Value }.

(** The constructors used by [Tag].  [Int] and [IntSlice] widen Go's
    [int] to int64, which keeps the value. *)
Definition Int (k : string) (v : Z) := {| Key := k; Val := Int64Value v |}.
Definition Int64 (k : string) (v : Z) := {| Key := k; Val := Int64Value v |}.
Definition String (k v : string) := {| Key := k; Val := StringValue v |}.
Definition Float64 (k : string) (v : float64) :=
  {| Key := k; Val := Float64Value v |}.
Definition Bool (k : string) (v : bool) := {| Key := k; Val := BoolValue v |}.
Definition StringSlice (k : string) (v : list string) :=
  {| Key := k; Val := StringSliceValue v |}.
Definition IntSlice (k : string) (v : list Z) :=
  {| Key := k; Val := Int64SliceValue v |}.
(** [Stringer(k, v)] stores the text [v.String()] returns. *)
Definition Stringer (k : string) (text : string) :=
  {| Key := k; Val := StringValue text |}.
End attribute.

(** go.opentelemetry.io/otel/trace: the interface of the underlying span,
    as far as the facade calls it. *)
Module trace.
Record SpanContext : Type := {
  IsValid : bool;
  IsSampled : bool;
  SpanID : string;   (* SpanID().String() *)
  TraceID : string   (* TraceID().String() *)
}.

Inductive EventOption : Type :=
| WithTimestamp (t : time.Time)
| WithAttributes (kv : list attribute.KeyValue)
| WithStackTrace (b : bool).

(** [S] is the state of one implementation of [trace.Span]; a method
    with no result is a state transformer. *)
Class Span (S : Type) : Type := {
  SetAttributes : list attribute.KeyValue -> S -> S;
  GetSpanContext : S -> SpanContext;
  SetStatus : codes.Code -> string -> S -> S;
  AddEvent : string -> list EventOption -> S -> S;
  RecordError : option error -> S -> S;
  EndSpan : S -> S
}.
End trace.

(* ================================================================== *)
(** ** span.go: the span facade *)

(** A value of Go's empty interface [any], by its dynamic type.  A type
    switch selects on the dynamic type itself, so a sized integer is not
    an [int], and a defined type is none of the predeclared ones. *)
Inductive any : Type :=
| any_nil
| any_int (v : Z)
| any_int8 (v : Z)
| any_int16 (v : Z)
| any_int32 (v : Z)
| any_int64 (v : Z)
| any_uint (v : N)
| any_uint32 (v : N)
| any_uint64 (v : N)
| any_float32 (v : Z)
| any_float64 (v : float64)
| any_string (v : string)
| any_bool (v : bool)
| any_strings (v : list string)        (* []string *)
| any_ints (v : list Z)                (* []int *)
| any_int64s (v : list Z)              (* []int64 *)
| any_Stringer (type text : string)
    (* a value of a type with a String method, which returns text *)
| any_other (type : string).
    (* a value of any other type, which has no String method *)

(** A [*error] argument of [End]: a nil pointer, or the address of an
    error variable, read when [End] runs and holding nil or an error. *)
Definition errorPtr : Type := option (option error).

Section Facade.
Context {S : Type} `{trace.Span S}.

(** type span struct { s trace.Span } *)
Record span : Type := { s : S }.

Definition span_Tag (key : string) (value : any) (sp : span) : span :=
  match value with
  | any_int v =>
      {| s := trace.SetAttributes [attribute.Int key v] (s sp) |}
  | any_string v =>
      {| s := trace.SetAttributes [attribute.String key v] (s sp) |}
  | any_float64 v =>
      {| s := trace.SetAttributes [attribute.Float64 key v] (s sp) |}
  | any_int64 v =>
      {| s := trace.SetAttributes [attribute.Int64 key v] (s sp) |}
  | any_bool v =>
      {| s := trace.SetAttributes [attribute.Bool key v] (s sp) |}
  | any_strings v =>
      {| s := trace.SetAttributes [attribute.StringSlice key v] (s sp) |}
  | any_ints v =>
      {| s := trace.SetAttributes [attribute.IntSlice key v] (s sp) |}
  | any_Stringer _ text =>
      {| s := trace.SetAttributes [attribute.Stringer key text] (s sp) |}
  | _ => sp
  end.

Definition span_IsValid (sp : span) : bool :=
  trace.IsValid (trace.GetSpanContext (s sp)).

Definition span_IsSampled (sp : span) : bool :=
  trace.IsSampled (trace.GetSpanContext (s sp)).

Definition span_SpanId (sp : span) : string :=
  trace.SpanID (trace.GetSpanContext (s sp)).

Definition span_TraceId (sp : span) : string :=
  trace.TraceID (trace.GetSpanContext (s sp)).

Definition span_SetStatus (code : codes.Code) (description : string)
    (sp : span) : span :=
  {| s := trace.SetStatus code description (s sp) |}.

Definition span_AddEvent (name : string) (opts : list trace.EventOption)
    (sp : span) : span :=
  {| s := trace.AddEvent name opts (s sp) |}.

Definition span_RecordError (err : option error) (sp : span) : span :=
  {| s := trace.RecordError err (s sp) |}.

(** The condition of [handleError]. *)
Definition isCanceled (err : error) : bool :=
  errors.Is err context.Canceled
  || grpccodes.eqb (status.Code (Some err)) grpccodes.Canceled.

(** [now] is what [time.Now()] returns when it is called. *)
Definition span_handleError (now : time.Time) (err : error) (sp : span)
    : span :=
  if isCanceled err
  then {| s := trace.AddEvent "canceled" [trace.WithTimestamp now] (s sp) |}
  else {| s := trace.SetStatus codes.Error (Error err) (s sp) |}.

(** The loop of [End]: the first pointer that is not nil and points to
    an error that is not nil is handled, and the loop breaks. *)
Fixpoint span_End_loop (now : time.Time) (errs : list errorPtr) (sp : span)
    : span :=
  match errs with
  | [] => sp
  | Some (Some err) :: _ => span_handleError now err sp
  | _ :: rest => span_End_loop now rest sp
  end.

Definition span_End (now : time.Time) (errs : list errorPtr) (sp : span)
    : span :=
  {| s := trace.EndSpan (s (span_End_loop now errs sp)) |}.
End Facade.

Arguments span S : clear implicits.
Arguments Build_span {S} _.

(* ================================================================== *)
(** ** Implementations of the underlying span *)

(** One call through the [trace.Span] interface. *)
Inductive Call : Type :=
| CallSetAttributes (kv : list attribute.KeyValue)
| CallSetStatus (code : codes.Code) (description : string)
| CallAddEvent (name : string) (opts : list trace.EventOption)
| CallRecordError (err : option error)
| CallEnd.

Definition perform {S : Type} `{trace.Span S} (c : Call) (st : S) : S :=
  match c with
  | CallSetAttributes kv => trace.SetAttributes kv st
  | CallSetStatus code description => trace.SetStatus code description st
  | CallAddEvent name opts => trace.AddEvent name opts st
  | CallRecordError err => trace.RecordError err st
  | CallEnd => trace.EndSpan st
  end.

(** The calls of [cs] made in order. *)
Definition replay {S : Type} `{trace.Span S} (cs : list Call) (st : S) : S :=
  fold_left (fun st c => perform c st) cs st.

(** A span that only records, in order, the calls made on it. *)
Record spySpan : Type := {
  spy_context : trace.SpanContext;
  calls : list Call
}.

Definition spy_call (c : Call) (st : spySpan) : spySpan :=
  {| spy_context := spy_context st; calls := calls st ++ [c] |}.

#[export] Instance spy_Span : trace.Span spySpan := {
  SetAttributes kv := spy_call (CallSetAttributes kv);
  GetSpanContext := spy_context;
  SetStatus code description := spy_call (CallSetStatus code description);
  AddEvent name opts := spy_call (CallAddEvent name opts);
  RecordError err := spy_call (CallRecordError err);
  EndSpan := spy_call CallEnd
}.

(** A spy span that has not been called yet. *)
Definition fresh (sc : trace.SpanContext) : spySpan :=
  {| spy_context := sc; calls := [] |}.

(** The span of the no-op tracer: it keeps a span context and drops every
    call. *)
Record noopSpan : Type := { noop_context : trace.SpanContext }.

#[export] Instance noop_Span : trace.Span noopSpan := {
  SetAttributes _ st := st;
  GetSpanContext := noop_context;
  SetStatus _ _ st := st;
  AddEvent _ _ st := st;
  RecordError _ st := st;
  EndSpan st := st
}.

(** A recording span, after the contract the [Span] interface documents:
    a status is set provided no higher one was set before
    (Ok > Error > Unset), the description is kept only with Error,
    [RecordError] adds an event and leaves the status alone and does
    nothing for a nil error, and nothing is updated once the span has
    ended. *)
Record Status : Type := { StatusCode : codes.Code; Description : string }.

Record Event : Type := {
  EventName : string;
  EventOptions : list trace.EventOption
}.

Record recordingSpan : Type := {
  rec_context : trace.SpanContext;
  attributes : list attribute.KeyValue;
  events : list Event;
  spanStatus : Status;
  ended : bool
}.

Definition rec_SetAttributes (kv : list attribute.KeyValue)
    (st : recordingSpan) : recordingSpan :=
  if ended st then st else
  {| rec_context := rec_context st; attributes := attributes st ++ kv;
     events := events st; spanStatus := spanStatus st; ended := false |}.

Definition rec_SetStatus (code : codes.Code) (description : string)
    (st : recordingSpan) : recordingSpan :=
  if ended st then st else
  if (codes.value code <? codes.value (StatusCode (spanStatus st)))%N then st
  else
  {| rec_context := rec_context st; attributes := attributes st;
     events := events st;
     spanStatus :=
       {| StatusCode := code;
          Description :=
            match code with codes.Error => description | _ => "" end |};
     ended := false |}.

Definition rec_AddEvent (name : string) (opts : list trace.EventOption)
    (st : recordingSpan) : recordingSpan :=
  if ended st then st else
  {| rec_context := rec_context st; attributes := attributes st;
     events := events st ++ [{| EventName := name; EventOptions := opts |}];
     spanStatus := spanStatus st; ended := false |}.

Definition rec_RecordError (err : option error) (st : recordingSpan)
    : recordingSpan :=
  match err with
  | None => st
  | Some e =>
      rec_AddEvent "exception"
        [trace.WithAttributes [attribute.String "exception.message" (Error e)]]
        st
  end.

Definition rec_End (st : recordingSpan) : recordingSpan :=
  {| rec_context := rec_context st; attributes := attributes st;
     events := events st; spanStatus := spanStatus st; ended := true |}.

#[export] Instance recording_Span : trace.Span recordingSpan := {
  SetAttributes := rec_SetAttributes;
  GetSpanContext := rec_context;
  SetStatus := rec_SetStatus;
  AddEvent := rec_AddEvent;
  RecordError := rec_RecordError;
  EndSpan := rec_End
}.

(* ================================================================== *)
(** ** options.go *)

Record Options : Type := {
  keepaliveTime : option time.Duration;
  keepaliveTimeout : option time.Duration;
  keepalivePermitWithoutStream : option bool;
  host : string;
  port : N;        (* uint16 *)
  noop : bool
}.

(** type Option func(opts *Options) *)
Definition Option : Type := Options -> Options.

Definition Noop : Option := fun o =>
  {| keepaliveTime := keepaliveTime o; keepaliveTimeout := keepaliveTimeout o;
     keepalivePermitWithoutStream := keepalivePermitWithoutStream o;
     host := host o; port := port o; noop := true |}.

Definition WithCollectorHost (h : string) : Option := fun opts =>
  {| keepaliveTime := keepaliveTime opts;
     keepaliveTimeout := keepaliveTimeout opts;
     keepalivePermitWithoutStream := keepalivePermitWithoutStream opts;
     host := h; port := port opts; noop := noop opts |}.

Definition WithCollectorPort (p : N) : Option := fun opts =>
  {| keepaliveTime := keepaliveTime opts;
     keepaliveTimeout := keepaliveTimeout opts;
     keepalivePermitWithoutStream := keepalivePermitWithoutStream opts;
     host := host opts; port := p; noop := noop opts |}.

Definition WithKeepaliveTime (val : time.Duration) : Option := fun opts =>
  {| keepaliveTime := Some val;
     keepaliveTimeout := keepaliveTimeout opts;
     keepalivePermitWithoutStream := keepalivePermitWithoutStream opts;
     host := host opts; port := port opts; noop := noop opts |}.

Definition WithKeepaliveTimeout (val : time.Duration) : Option := fun opts =>
  {| keepaliveTime := keepaliveTime opts;
     keepaliveTimeout := Some val;
     keepalivePermitWithoutStream := keepalivePermitWithoutStream opts;
     host := host opts; port := port opts; noop := noop opts |}.

Definition WithKeepalivePermitWithoutStream (val : bool) : Option :=
  fun opts =>
  {| keepaliveTime := keepaliveTime opts;
     keepaliveTimeout := keepaliveTimeout opts;
     keepalivePermitWithoutStream := Some val;
     host := host opts; port := port opts; noop := noop opts |}.

Definition defaultOptions : list Option :=
  [WithCollectorHost "localhost"; WithCollectorPort 4317%N].

(** The zero value [Options{}]. *)
Definition zeroOptions : Options :=
  {| keepaliveTime := None; keepaliveTimeout := None;
     keepalivePermitWithoutStream := None;
     host := ""; port := 0%N; noop := false |}.

Definition buildOptions (opts : list Option) : Options :=
  let options := zeroOptions in
  let opts := (defaultOptions ++ opts)%list in
  fold_left (fun options opt => opt options) opts options.

(** fmt.Sprintf("%s:%d", o.host, o.port) *)
Definition GetGrpcTarget (o : Options) : string :=
  host o ++ ":" ++ NilZero.string_of_uint (N.to_uint (port o)).

Definition IsNoop (o : Options) : bool := noop o.

(* ================================================================== *)
(** ** grpc.go *)

Module keepalive.
Record ClientParameters : Type := {
  Time : time.Duration;
  Timeout : time.Duration;
  PermitWithoutStream : bool
}.

(** The zero value of the struct. *)
Definition zero : ClientParameters :=
  {| Time := 0%Z; Timeout := 0%Z; PermitWithoutStream := false |}.
End keepalive.

Module grpc.
Inductive TransportCredentials : Type := insecure_NewCredentials.

Inductive DialOption : Type :=
| WithTransportCredentials (creds : TransportCredentials)
| WithKeepaliveParams (kp : keepalive.ClientParameters).

(** The client connection [NewClient] returns for a target. *)
Record ClientConn : Type := {
  Target : string;
  DialOptions : list DialOption
}.
End grpc.

Definition grpcDialOptions (options : Options) : list grpc.DialOption :=
  let opts := [grpc.WithTransportCredentials grpc.insecure_NewCredentials] in
  let useKeepalive := false in
  let keepaliveClientParameters := keepalive.zero in
  let '(useKeepalive, keepaliveClientParameters) :=
    match keepaliveTime options with
    | Some v =>
        (true,
         {| keepalive.Time := v;
            keepalive.Timeout :=
              keepalive.Timeout keepaliveClientParameters;
            keepalive.PermitWithoutStream :=
              keepalive.PermitWithoutStream keepaliveClientParameters |})
    | None => (useKeepalive, keepaliveClientParameters)
    end in
  let '(useKeepalive, keepaliveClientParameters) :=
    match keepaliveTimeout options with
    | Some v =>
        (true,
         {| keepalive.Time := keepalive.Time keepaliveClientParameters;
            keepalive.Timeout := v;
            keepalive.PermitWithoutStream :=
              keepalive.PermitWithoutStream keepaliveClientParameters |})
    | None => (useKeepalive, keepaliveClientParameters)
    end in
  let '(useKeepalive, keepaliveClientParameters) :=
    match keepalivePermitWithoutStream options with
    | Some v =>
        (true,
         {| keepalive.Time := keepalive.Time keepaliveClientParameters;
            keepalive.Timeout :=
              keepalive.Timeout keepaliveClientParameters;
            keepalive.PermitWithoutStream := v |})
    | None => (useKeepalive, keepaliveClientParameters)
    end in
  if useKeepalive
  then (opts ++ [grpc.WithKeepaliveParams keepaliveClientParameters])%list
  else opts.

(* ================================================================== *)
(** ** The process: the package variable and the outside world *)

Record Exporter : Type := { exporterConn : grpc.ClientConn }.

Record Resource : Type := {
  SchemaURL : string;
  ResourceAttributes : list attribute.KeyValue
}.

(** What [tracesdk.NewTracerProvider] was given. *)
Record TracerProvider : Type := {
  batcher : option Exporter;
  resource : Resource
}.

(** A non-nil [trace.Tracer], by where it comes from. *)
Inductive Tracer : Type :=
| noopTracer (name : string)
    (* noop.NewTracerProvider().Tracer(name) *)
| otelTracer (tp : TracerProvider) (name : string).
    (* otel.Tracer(name) with tp the global provider *)

(** A call that leaves the package. *)
Inductive Effect : Type :=
| grpcNewClient (target : string) (opts : list grpc.DialOption)
| connConnect (conn : grpc.ClientConn)
| otlptracegrpcNew (conn : grpc.ClientConn)
| otelSetTracerProvider (tp : TracerProvider)
| otelSetTextMapPropagator
| providerShutdown (tp : TracerProvider)
| connClose (conn : grpc.ClientConn).

Record Process : Type := {
  tracer : option Tracer;     (* var tracer trace.Tracer *)
  history : list Effect       (* the calls made so far, in order *)
}.

(** The errors the outside world answers with.  Each answer may depend on
    everything that has happened before the call. *)
Record Collaborators (Ctx : Type) : Type := {
  NewClient_error :
    list Effect -> string -> list grpc.DialOption -> option error;
  New_error : list Effect -> Ctx -> grpc.ClientConn -> option error;
  Shutdown_error : list Effect -> Ctx -> TracerProvider -> option error;
  Close_error : list Effect -> grpc.ClientConn -> option error
}.

Arguments NewClient_error {Ctx} _ _ _ _.
Arguments New_error {Ctx} _ _ _ _.
Arguments Shutdown_error {Ctx} _ _ _ _.
Arguments Close_error {Ctx} _ _ _.

(** Computations over the process state. *)
Definition M (A : Type) : Type := Process -> A * Process.

Definition ret {A : Type} (a : A) : M A := fun p => (a, p).

Definition bind {A B : Type} (m : M A) (k : A -> M B) : M B :=
  fun p => let (a, p') := m p in k a p'.

Notation "x <- m ;; k" := (bind m (fun x => k))
  (at level 61, m at next level, right associativity).

Definition getTracer : M (option Tracer) := fun p => (tracer p, p).

Definition setTracer (t : option Tracer) : M unit :=
  fun p => (tt, {| tracer := t; history := history p |}).

(** An outside call: it is answered from what happened so far, and then
    it has happened. *)
Definition external {A : Type} (e : Effect) (answer : list Effect -> A)
    : M A :=
  fun p =>
    (answer (history p),
     {| tracer := tracer p; history := (history p ++ [e])%list |}).

Section Lifecycle.
Context {Ctx : Type} (world : Collaborators Ctx).

(** The closure [makeGrpcExporter] returns next to the exporter. *)
Definition closeConn (conn : grpc.ClientConn) : M (option error) :=
  err <- external (connClose conn) (fun h => Close_error world h conn) ;;
  match err with
  | Some err =>
      ret (Some (fmt.Errorf_w "failed to close tracer connection: " err))
  | None => ret None
  end.

Definition makeGrpcExporter (ctx : Ctx) (options : Options)
    : M (option Exporter * option (M (option error)) * option error) :=
  let target := GetGrpcTarget options in
  let dialOptions := grpcDialOptions options in
  err <- external (grpcNewClient target dialOptions)
           (fun h => NewClient_error world h target dialOptions) ;;
  match err with
  | Some err =>
      ret (None, None,
           Some (fmt.Errorf_w "trace collector connection error: " err))
  | None =>
      let conn :=
        {| grpc.Target := target; grpc.DialOptions := dialOptions |} in
      _ <- external (connConnect conn) (fun _ => tt) ;;
      err <- external (otlptracegrpcNew conn)
               (fun h => New_error world h ctx conn) ;;
      match err with
      | Some err =>
          ret (None, None,
               Some (fmt.Errorf_w "failed to create exporter: " err))
      | None =>
          ret (Some {| exporterConn := conn |}, Some (closeConn conn), None)
      end
  end.

(** The closure [Init] returns when tracing is enabled. *)
Definition shutdown (tp : TracerProvider) (closer : option (M (option error)))
    (ctx : Ctx) : M (option error) :=
  let errs : list (option error) := [] in
  err <- external (providerShutdown tp)
           (fun h => Shutdown_error world h ctx tp) ;;
  let errs :=
    match err with
    | Some err =>
        (errs ++
         [Some (fmt.Errorf_w "failed to shutdown tracer provider: " err)])
        %list
    | None => errs
    end in
  match closer with
  | Some closer =>
      err <- closer ;;
      let errs :=
        match err with
        | Some err => (errs ++ [Some err])%list
        | None => errs
        end in
      ret (errors.Join errs)
  | None => ret (errors.Join errs)
  end.

Definition Init (ctx : Ctx) (appName version : string) (opts : list Option)
    : M (option (Ctx -> M (option error)) * option error) :=
  t <- getTracer ;;
  match t with
  | Some _ => ret (None, Some (errors.New "tracer already initialized"))
  | None =>
      let options := buildOptions opts in
      if IsNoop options then
        _ <- setTracer (Some (noopTracer "")) ;;
        ret (Some (fun _ : Ctx => ret None), None)
      else
        r <- makeGrpcExporter ctx options ;;
        let '(exporter, closer, err) := r in
        match err with
        | Some err => ret (None, Some err)
        | None =>
            let tp :=
              {| batcher := exporter;
                 resource :=
                   {| SchemaURL := "https://opentelemetry.io/schemas/1.27.0";
                      ResourceAttributes :=
                        [attribute.String "service.name" appName;
                         attribute.String "service.version" version] |} |}
            in
            _ <- external (otelSetTracerProvider tp) (fun _ => tt) ;;
            _ <- external otelSetTextMapPropagator (fun _ => tt) ;;
            _ <- setTracer (Some (otelTracer tp "")) ;;
            ret (Some (shutdown tp closer), None)
        end
  end.
End Lifecycle.

(* ================================================================== *)
(** ** span.go: starting a span *)

(** The result of a call that may panic. *)
Inductive outcome (A : Type) : Type :=
| Returns (a : A)
| Panics.

Arguments Returns {A} _.
Arguments Panics {A}.

Inductive SpanStartOption : Type :=
| WithNewRoot
| WithStartTimestamp (t : time.Time)
| WithStartAttributes (kv : list attribute.KeyValue).

Section Start.
Context {Ctx S : Type} `{trace.Span S}.

(** What the method [Start] of each tracer does. *)
Variable tracerStart :
  Tracer -> Ctx -> string -> list SpanStartOption -> Ctx * S.

(** trace.SpanFromContext *)
Variable traceSpanFromContext : Ctx -> S.

(** A method call on an interface value: on a nil interface the call
    panics. *)
Definition callStart (t : option Tracer) (ctx : Ctx) (name : string)
    (opts : list SpanStartOption) : outcome (Ctx * S) :=
  match t with
  | None => Panics
  | Some t => Returns (tracerStart t ctx name opts)
  end.

Definition StartSpan (p : Process) (ctx : Ctx) (name : string)
    (opts : list SpanStartOption) : outcome (Ctx * span S) :=
  let started :=
    match tracer p with
    | None => callStart (Some (noopTracer "noop")) ctx name opts
    | Some _ => callStart (tracer p) ctx name opts
    end in
  match started with
  | Returns (ctx', underlying) => Returns (ctx', Build_span underlying)
  | Panics => Panics
  end.

Definition SpanFromContext (ctx : Ctx) : span S :=
  Build_span (traceSpanFromContext ctx).
End Start.

(* ================================================================== *)
(** ** The vocabulary of the properties *)

(** An argument of [End] that carries no error: a nil pointer, or a
    pointer to a nil error. *)
Definition noError (p : errorPtr) : Prop := p = None \/ p = Some None.

(** A span context to run the facade on. *)
Definition sampleContext : trace.SpanContext :=
  {| trace.IsValid := true; trace.IsSampled := true;
     trace.SpanID := "00f067aa0ba902b7";
     trace.TraceID := "4bf92f3577b34da6a3ce929d0e0e4736" |}.

(** The calls the loop of [End] makes, on any span: none of them ends
    the span. *)
Definition isCallEnd (c : Call) : bool :=
  match c with CallEnd => true | _ => false end.

(** The value kinds the specification lists as supported, with the type
    of the attribute each is to give: "signed integer (32- and 64-bit),
    string, floating point, boolean, string sequence, integer sequence,
    and any value with a textual representation". *)
Definition specSupported (value : any) : option attribute.Type_ :=
  match value with
  | any_int _ | any_int32 _ | any_int64 _ => Some attribute.INT64
  | any_string _ => Some attribute.STRING
  | any_float64 _ => Some attribute.FLOAT64
  | any_bool _ => Some attribute.BOOL
  | any_strings _ => Some attribute.STRINGSLICE
  | any_ints _ => Some attribute.INT64SLICE
  | any_Stringer _ _ => Some attribute.STRING
  | _ => None
  end.

(** The dynamic types the type switch of [Tag] has a case for: int,
    string, float64, int64, bool, []string, []int and the types with a
    String method. *)
Definition tagSupported (value : any) : option attribute.Type_ :=
  match value with
  | any_int _ | any_int64 _ => Some attribute.INT64
  | any_string _ => Some attribute.STRING
  | any_float64 _ => Some attribute.FLOAT64
  | any_bool _ => Some attribute.BOOL
  | any_strings _ => Some attribute.STRINGSLICE
  | any_ints _ => Some attribute.INT64SLICE
  | any_Stringer _ _ => Some attribute.STRING
  | _ => None
  end.

(** The connection and the provider [Init] builds from its arguments. *)
Definition connOf (options : Options) : grpc.ClientConn :=
  {| grpc.Target := GetGrpcTarget options;
     grpc.DialOptions := grpcDialOptions options |}.

Definition providerOf (appName version : string) (options : Options)
    : TracerProvider :=
  {| batcher := Some {| exporterConn := connOf options |};
     resource :=
       {| SchemaURL := "https://opentelemetry.io/schemas/1.27.0";
          ResourceAttributes :=
            [attribute.String "service.name" appName;
             attribute.String "service.version" version] |} |}.

(** The calls a successful [Init] makes when tracing is enabled. *)
Definition initEffects (appName version : string) (options : Options)
    : list Effect :=
  [grpcNewClient (GetGrpcTarget options) (grpcDialOptions options);
   connConnect (connOf options);
   otlptracegrpcNew (connOf options);
   otelSetTracerProvider (providerOf appName version options);
   otelSetTextMapPropagator].

Definition alreadyInitialized : error :=
  errors.New "tracer already initialized".

(** Collaborators that never fail, for a context type with one value. *)
Definition calmWorld : Collaborators unit :=
  {| NewClient_error := fun _ _ _ => None;
     New_error := fun _ _ _ => None;
     Shutdown_error := fun _ _ _ => None;
     Close_error := fun _ _ => None |}.

(** The process before [Init]. *)
Definition startProcess : Process := {| tracer := None; history := [] |}.

(** Collaborators whose provider shutdown fails and whose connection
    closes. *)
Definition flushFails : Collaborators unit :=
  {| NewClient_error := fun _ _ _ => None;
     New_error := fun _ _ _ => None;
     Shutdown_error := fun _ _ _ => Some (errors.New "flush failed");
     Close_error := fun _ _ => None |}.

(** The option functions a caller of [Init] can supply. *)
Inductive optionCall : Type :=
| callNoop
| callWithCollectorHost (h : string)
| callWithCollectorPort (p : N)
| callWithKeepaliveTime (val : time.Duration)
| callWithKeepaliveTimeout (val : time.Duration)
| callWithKeepalivePermitWithoutStream (val : bool).

Definition toOption (c : optionCall) : Option :=
  match c with
  | callNoop => Noop
  | callWithCollectorHost h => WithCollectorHost h
  | callWithCollectorPort p => WithCollectorPort p
  | callWithKeepaliveTime val => WithKeepaliveTime val
  | callWithKeepaliveTimeout val => WithKeepaliveTimeout val
  | callWithKeepalivePermitWithoutStream val =>
      WithKeepalivePermitWithoutStream val
  end.

(** One of the three keepalive option functions. *)
Definition isKeepaliveCall (c : optionCall) : bool :=
  match c with
  | callWithKeepaliveTime _ | callWithKeepaliveTimeout _
  | callWithKeepalivePermitWithoutStream _ => true
  | _ => false
  end.

Definition isSet {A : Type} (o : option A) : bool :=
  match o with Some _ => true | None => false end.

(** At least one keepalive field of the options is set. *)
Definition keepaliveSet (o : Options) : bool :=
  isSet (keepaliveTime o) || isSet (keepaliveTimeout o)
  || isSet (keepalivePermitWithoutStream o).

Definition isKeepaliveParams (d : grpc.DialOption) : bool :=
  match d with grpc.WithKeepaliveParams _ => true | _ => false end.

(** The parameters sent when keepalive is used: a field that was not set
    has the zero value. *)
Definition keepaliveOf (o : Options) : keepalive.ClientParameters :=
  {| keepalive.Time :=
       match keepaliveTime o with Some v => v | None => 0%Z end;
     keepalive.Timeout :=
       match keepaliveTimeout o with Some v => v | None => 0%Z end;
     keepalive.PermitWithoutStream :=
       match keepalivePermitWithoutStream o with
       | Some v => v
       | None => false
       end |}.

(** A span context that is not valid, as a span of the no-op tracer
    has. *)
Definition invalidContext : trace.SpanContext :=
  {| trace.IsValid := false; trace.IsSampled := false;
     trace.SpanID := "0000000000000000";
     trace.TraceID := "00000000000000000000000000000000" |}.

(** A [Start] for spy spans: the no-op tracer starts a span that is not
    valid, a provider's tracer a valid one. *)
Definition sampleStart (t : Tracer) (ctx : unit) (name : string)
    (opts : list SpanStartOption) : unit * spySpan :=
  match t with
  | noopTracer _ => (ctx, fresh invalidContext)
  | otelTracer _ _ => (ctx, fresh sampleContext)
  end.

(** What an option function supplies for each field of the options. *)
Definition isNoopCall (c : optionCall) : bool :=
  match c with callNoop => true | _ => false end.

Definition suppliedHost (c : optionCall) : option string :=
  match c with callWithCollectorHost h => Some h | _ => None end.

Definition suppliedPort (c : optionCall) : option N :=
  match c with callWithCollectorPort p => Some p | _ => None end.

Definition suppliedKeepaliveTime (c : optionCall)
    : option (option time.Duration) :=
  match c with callWithKeepaliveTime val => Some (Some val) | _ => None end.

Definition suppliedKeepaliveTimeout (c : optionCall)
    : option (option time.Duration) :=
  match c with
  | callWithKeepaliveTimeout val => Some (Some val)
  | _ => None
  end.

Definition suppliedPermitWithoutStream (c : optionCall)
    : option (option bool) :=
  match c with
  | callWithKeepalivePermitWithoutStream val => Some (Some val)
  | _ => None
  end.

(** The value the last option function of [cs] that supplies one gives,
    and [before] when none does. *)
Fixpoint lastSupplied {A : Type} (supplied : optionCall -> option A)
    (cs : list optionCall) (before : A) : A :=
  match cs with
  | [] => before
  | c :: cs =>
      lastSupplied supplied cs
        (match supplied c with Some v => v | None => before end)
  end.

(** [errors.Is] on an error that may be nil. *)
Definition errorIs (err : option error) (target : context.sentinel) : bool :=
  match err with
  | Some e => errors.Is e target
  | None => false
  end.

(** Collaborators that refuse the connection, and collaborators that
    fail to create the exporter. *)
Definition dialFails : Collaborators unit :=
  {| NewClient_error := fun _ _ _ => Some (errors.New "bad target");
     New_error := fun _ _ _ => None;
     Shutdown_error := fun _ _ _ => None;
     Close_error := fun _ _ => None |}.

Definition exporterFails : Collaborators unit :=
  {| NewClient_error := fun _ _ _ => None;
     New_error := fun _ _ _ => Some (contextError context.Canceled);
     Shutdown_error := fun _ _ _ => None;
     Close_error := fun _ _ => None |}.

(** Collaborators whose provider shutdown is cut short by the context
    and whose connection fails to close. *)
Definition bothFail : Collaborators unit :=
  {| NewClient_error := fun _ _ _ => None;
     New_error := fun _ _ _ => None;
     Shutdown_error :=
       fun _ _ _ => Some (contextError context.DeadlineExceeded);
     Close_error := fun _ _ => Some (errors.New "closing") |}.

(** A recording span that has just been started. *)
Definition startedSpan : recordingSpan :=
  {| rec_context := sampleContext; attributes := []; events := [];
     spanStatus := {| StatusCode := codes.Unset; Description := "" |};
     ended := false |}.

(* ================================================================== *)
(** * Properties of the span facade *)

Lemma grpccodes_eqb_eq (a b : grpccodes.Code) :
  grpccodes.eqb a b = true <-> a = b.
Proof.
  split.
  - destruct a, b; cbv; intro E; first [reflexivity | discriminate E].
  - intros ->. destruct b; reflexivity.
Qed.

Lemma isCanceled_iff (err : error) :
  isCanceled err = true <->
  errors.Is err context.Canceled = true
  \/ status.Code (Some err) = grpccodes.Canceled.
Proof.
  unfold isCanceled. rewrite orb_true_iff, grpccodes_eqb_eq. reflexivity.
Qed.

Lemma isCanceled_false (err : error) :
  errors.Is err context.Canceled = false ->
  status.Code (Some err) <> grpccodes.Canceled ->
  isCanceled err = false.
Proof.
  intros HIs HCode. destruct (isCanceled err) eqn:E; [|reflexivity].
  apply isCanceled_iff in E. destruct E as [E | E].
  - congruence.
  - contradiction.
Qed.

(** What a spy span has recorded after a list of calls. *)
Lemma calls_replay (cs : list Call) (st : spySpan) :
  calls (replay cs st) = (calls st ++ cs)%list.
Proof.
  revert st. induction cs as [|c cs IH]; intro st.
  - symmetry. apply app_nil_r.
  - change (replay (c :: cs) st) with (replay cs (perform c st)).
    rewrite IH. destruct c; cbn; rewrite <- app_assoc; reflexivity.
Qed.

Section SpanFacts.
Context {S : Type} `{trace.Span S}.

Lemma span_End_loop_skip now (pre rest : list errorPtr) (sp : span S) :
  Forall noError pre ->
  span_End_loop now (pre ++ rest) sp = span_End_loop now rest sp.
Proof.
  induction 1 as [|p pre Hp _ IH]; [reflexivity|].
  destruct Hp as [-> | ->]; exact IH.
Qed.

Lemma span_End_no_error now (errs : list errorPtr) (sp : span S) :
  Forall noError errs ->
  s (span_End now errs sp) = trace.EndSpan (s sp).
Proof.
  intro Hnil. unfold span_End.
  rewrite <- (app_nil_r errs), (span_End_loop_skip now errs [] sp Hnil).
  reflexivity.
Qed.

Lemma span_End_first now (pre post : list errorPtr) err (sp : span S) :
  Forall noError pre ->
  s (span_End now (pre ++ Some (Some err) :: post) sp) =
  trace.EndSpan (s (span_handleError now err sp)).
Proof.
  intro Hnil. unfold span_End.
  rewrite (span_End_loop_skip now pre _ sp Hnil). reflexivity.
Qed.

Lemma span_handleError_failure now err (sp : span S) :
  isCanceled err = false ->
  s (span_handleError now err sp) =
  trace.SetStatus codes.Error (Error err) (s sp).
Proof. unfold span_handleError. intros ->. reflexivity. Qed.

Lemma span_handleError_canceled now err (sp : span S) :
  isCanceled err = true ->
  s (span_handleError now err sp) =
  trace.AddEvent "canceled" [trace.WithTimestamp now] (s sp).
Proof. unfold span_handleError. intros ->. reflexivity. Qed.

(** [End] with one failure is [SetStatus] and then [End] below. *)
Lemma span_End_one_failure now err (sp : span S) :
  isCanceled err = false ->
  s (span_End now [Some (Some err)] sp) =
  replay [CallSetStatus codes.Error (Error err); CallEnd] (s sp).
Proof.
  intro Hc.
  pose proof (span_End_first now [] [] err sp (Forall_nil _)) as E.
  cbn [app] in E. etransitivity; [exact E|].
  rewrite (span_handleError_failure now err sp Hc). reflexivity.
Qed.

(** [End] with one cancellation is [AddEvent] and then [End] below. *)
Lemma span_End_one_canceled now err (sp : span S) :
  isCanceled err = true ->
  s (span_End now [Some (Some err)] sp) =
  replay [CallAddEvent "canceled" [trace.WithTimestamp now]; CallEnd]
    (s sp).
Proof.
  intro Hc.
  pose proof (span_End_first now [] [] err sp (Forall_nil _)) as E.
  cbn [app] in E. etransitivity; [exact E|].
  rewrite (span_handleError_canceled now err sp Hc). reflexivity.
Qed.

(** The facade reaches the underlying span through the interface only:
    what [End] and [Tag] do to any span is the replay of the calls a spy
    span records. *)
Lemma span_End_replay now (errs : list errorPtr) (sp : span S) sc :
  s (span_End now errs sp) =
  replay (calls (s (span_End now errs (Build_span (fresh sc))))) (s sp).
Proof.
  unfold span_End.
  induction errs as [|[[err|]|] errs IH]; try exact IH; try reflexivity.
  cbn [span_End_loop]. unfold span_handleError.
  destruct (isCanceled err); reflexivity.
Qed.

Lemma span_Tag_replay key value (sp : span S) sc :
  s (span_Tag key value sp) =
  replay (calls (s (span_Tag key value (Build_span (fresh sc))))) (s sp).
Proof. destruct value; reflexivity. Qed.
End SpanFacts.

(** The status and the events of a recording span after the two ways
    [End] may handle an error. *)
Lemma recording_failure (st : recordingSpan) (description : string) :
  ended st = false ->
  StatusCode (spanStatus st) <> codes.Ok ->
  let st' := replay [CallSetStatus codes.Error description; CallEnd] st in
  spanStatus st' = {| StatusCode := codes.Error; Description := description |}
  /\ events st' = events st /\ ended st' = true.
Proof.
  intros Hopen Hok. cbn. unfold rec_SetStatus. rewrite Hopen.
  destruct (StatusCode (spanStatus st)); [| |contradiction]; cbn; auto.
Qed.

Lemma recording_canceled (st : recordingSpan) now :
  ended st = false ->
  let st' :=
    replay [CallAddEvent "canceled" [trace.WithTimestamp now]; CallEnd] st in
  spanStatus st' = spanStatus st
  /\ events st' =
     (events st ++
      [{| EventName := "canceled";
          EventOptions := [trace.WithTimestamp now] |}])%list
  /\ ended st' = true.
Proof.
  intros Hopen. cbn. unfold rec_AddEvent. rewrite Hopen. cbn. auto.
Qed.

(** C1: for an error that is neither a context cancellation nor carries
    the gRPC code Canceled, [End(&err)] sets the status Error with the text
    [err.Error()] and emits no "canceled" event: on every underlying span
    it makes the two calls SetStatus(Error, text) and End and no other, a
    spy span records exactly these, and on a recording span that has not
    ended and whose status is not Ok the status becomes Error with that
    text while the events stay as they were. *)
Theorem span_End_failure (now : time.Time) (err : error) :
  errors.Is err context.Canceled = false ->
  status.Code (Some err) <> grpccodes.Canceled ->
  let made := [CallSetStatus codes.Error (Error err); CallEnd] in
  (forall (S : Type) (I : trace.Span S) (sp : span S),
      s (span_End now [Some (Some err)] sp) = replay made (s sp))
  /\ (forall sp : span spySpan,
      calls (s (span_End now [Some (Some err)] sp)) =
      (calls (s sp) ++ made)%list)
  /\ (forall name opts, ~ In (CallAddEvent name opts) made)
  /\ (forall sp : span recordingSpan,
      ended (s sp) = false ->
      StatusCode (spanStatus (s sp)) <> codes.Ok ->
      spanStatus (s (span_End now [Some (Some err)] sp)) =
      {| StatusCode := codes.Error; Description := Error err |}
      /\ events (s (span_End now [Some (Some err)] sp)) = events (s sp)).
Proof.
  intros HIs HCode made.
  pose proof (isCanceled_false err HIs HCode) as Hc.
  repeat split.
  - intros S I sp. apply span_End_one_failure, Hc.
  - intro sp. rewrite (span_End_one_failure now err sp Hc).
    apply calls_replay.
  - intros name opts [E | [E | []]]; discriminate E.
  - rewrite (span_End_one_failure now err sp Hc).
    apply recording_failure; assumption.
  - rewrite (span_End_one_failure now err sp Hc).
    apply recording_failure; assumption.
Qed.

Lemma span_End_failure_witness :
  (errors.Is (errors.New "boom") context.Canceled = false
   /\ status.Code (Some (errors.New "boom")) <> grpccodes.Canceled)
  /\ calls (s (span_End 1700000000%Z [Some (Some (errors.New "boom"))]
                 (Build_span (fresh sampleContext)))) =
     [CallSetStatus codes.Error "boom"; CallEnd].
Proof.
  assert (HIs : errors.Is (errors.New "boom") context.Canceled = false)
    by reflexivity.
  assert (HCode : status.Code (Some (errors.New "boom")) <> grpccodes.Canceled)
    by (vm_compute; discriminate).
  split; [split; assumption|].
  exact (proj1 (proj2 (span_End_failure 1700000000%Z (errors.New "boom")
                         HIs HCode))
           (Build_span (fresh sampleContext))).
Defined.

(** C2: for an error that is a cancellation, because
    [errors.Is(err, context.Canceled)] holds or because its gRPC status
    code is Canceled, [End(&err)] records the event "canceled" with the
    timestamp [time.Now()] gave and does not set the status: on every
    underlying span it makes the two calls AddEvent("canceled",
    WithTimestamp(now)) and End and no other, and on a recording span that
    has not ended the status stays as it was. *)
Theorem span_End_canceled (now : time.Time) (err : error) :
  errors.Is err context.Canceled = true
  \/ status.Code (Some err) = grpccodes.Canceled ->
  let made :=
    [CallAddEvent "canceled" [trace.WithTimestamp now]; CallEnd] in
  (forall (S : Type) (I : trace.Span S) (sp : span S),
      s (span_End now [Some (Some err)] sp) = replay made (s sp))
  /\ (forall sp : span spySpan,
      calls (s (span_End now [Some (Some err)] sp)) =
      (calls (s sp) ++ made)%list)
  /\ (forall code description,
      ~ In (CallSetStatus code description) made)
  /\ (forall sp : span recordingSpan,
      ended (s sp) = false ->
      spanStatus (s (span_End now [Some (Some err)] sp)) = spanStatus (s sp)
      /\ events (s (span_End now [Some (Some err)] sp)) =
         (events (s sp) ++
          [{| EventName := "canceled";
              EventOptions := [trace.WithTimestamp now] |}])%list).
Proof.
  intros Hcancel made.
  apply isCanceled_iff in Hcancel. rename Hcancel into Hc.
  repeat split.
  - intros S I sp. apply span_End_one_canceled, Hc.
  - intro sp. rewrite (span_End_one_canceled now err sp Hc).
    apply calls_replay.
  - intros code description [E | [E | []]]; discriminate E.
  - rewrite (span_End_one_canceled now err sp Hc).
    apply recording_canceled; assumption.
  - rewrite (span_End_one_canceled now err sp Hc).
    apply recording_canceled; assumption.
Qed.

Lemma span_End_canceled_witness :
  status.Code
    (Some (fmt.Errorf_w "fetch: " (statusError grpccodes.Canceled "bye")))
  = grpccodes.Canceled
  /\ calls (s (span_End 1700000000%Z
                 [Some (Some (fmt.Errorf_w "fetch: "
                                (statusError grpccodes.Canceled "bye")))]
                 (Build_span (fresh sampleContext)))) =
     [CallAddEvent "canceled" [trace.WithTimestamp 1700000000%Z]; CallEnd].
Proof.
  assert (HCode :
    status.Code
      (Some (fmt.Errorf_w "fetch: " (statusError grpccodes.Canceled "bye")))
    = grpccodes.Canceled) by reflexivity.
  split; [exact HCode|].
  exact (proj1 (proj2 (span_End_canceled 1700000000%Z _ (or_intror HCode)))
           (Build_span (fresh sampleContext))).
Defined.

(** C3: [End] scans its arguments in order and handles exactly the first
    pointer that is not nil and points to an error that is not nil: the
    arguments before it, which carry no error, and all the arguments after
    it, whatever they carry, change nothing, so [End] does what it does
    when that error is the only argument, namely handle it and end the
    span. *)
Theorem span_End_first_error (now : time.Time) (pre post : list errorPtr)
    (err : error) :
  Forall noError pre ->
  forall (S : Type) (I : trace.Span S) (sp : span S),
    span_End now (pre ++ Some (Some err) :: post) sp =
    span_End now [Some (Some err)] sp
    /\ s (span_End now (pre ++ Some (Some err) :: post) sp) =
       trace.EndSpan (s (span_handleError now err sp)).
Proof.
  intros Hnil S I sp. split.
  - unfold span_End. rewrite (span_End_loop_skip now pre _ sp Hnil).
    reflexivity.
  - apply span_End_first, Hnil.
Qed.

(** [End(&errA, &errB)] with [errA] nil and [errB] a failure: the status
    is set from [errB]. *)
Lemma span_End_first_error_witness :
  Forall noError [Some (@None error)]
  /\ calls (s (span_End 1700000000%Z
                 [Some None; Some (Some (errors.New "errB"))]
                 (Build_span (fresh sampleContext)))) =
     [CallSetStatus codes.Error "errB"; CallEnd].
Proof.
  assert (Hnil : Forall noError [Some (@None error)])
    by (constructor; [right; reflexivity | constructor]).
  split; [exact Hnil|].
  exact (f_equal (fun sp => calls (s sp))
           (proj1 (span_End_first_error 1700000000%Z [Some None] []
                     (errors.New "errB") Hnil spySpan spy_Span
                     (Build_span (fresh sampleContext))))).
Defined.

Lemma span_End_loop_calls (now : time.Time) (errs : list errorPtr) :
  exists before : list Call,
    (forall (S : Type) (I : trace.Span S) (sp : span S),
        s (span_End_loop now errs sp) = replay before (s sp))
    /\ filter isCallEnd before = [].
Proof.
  induction errs as [|[[err|]|] errs IH]; try exact IH.
  - exists []. split; [intros; reflexivity | reflexivity].
  - cbn [span_End_loop]. unfold span_handleError.
    destruct (isCanceled err).
    + exists [CallAddEvent "canceled" [trace.WithTimestamp now]].
      split; [intros; reflexivity | reflexivity].
    + exists [CallSetStatus codes.Error (Error err)].
      split; [intros; reflexivity | reflexivity].
Qed.

Lemma replay_app {S : Type} `{trace.Span S} (cs ds : list Call) (st : S) :
  replay (cs ++ ds) st = replay ds (replay cs st).
Proof. apply fold_left_app. Qed.

(** C4: when no argument carries an error (no argument at all, nil
    pointers, pointers to nil errors) [End] only ends the underlying span:
    it makes no SetStatus and no AddEvent call, so a status set before
    stays.  And whatever the arguments are, [End] makes exactly one End
    call on the underlying span, as its last call. *)
Theorem span_End_finalizes_once (now : time.Time) (errs : list errorPtr) :
  (Forall noError errs ->
     (forall (S : Type) (I : trace.Span S) (sp : span S),
         s (span_End now errs sp) = replay [CallEnd] (s sp))
     /\ (forall sp : span spySpan,
         calls (s (span_End now errs sp)) = (calls (s sp) ++ [CallEnd])%list)
     /\ (forall sp : span recordingSpan,
         spanStatus (s (span_End now errs sp)) = spanStatus (s sp)
         /\ events (s (span_End now errs sp)) = events (s sp)))
  /\ (exists before : list Call,
       let made := (before ++ [CallEnd])%list in
       (forall (S : Type) (I : trace.Span S) (sp : span S),
           s (span_End now errs sp) = replay made (s sp))
       /\ (forall sp : span spySpan,
           calls (s (span_End now errs sp)) = (calls (s sp) ++ made)%list)
       /\ List.length (filter isCallEnd made) = 1).
Proof.
  split.
  - intro Hnil. repeat split.
    + intros S I sp. apply span_End_no_error, Hnil.
    + intro sp. rewrite (span_End_no_error now errs sp Hnil). reflexivity.
    + rewrite (span_End_no_error now errs sp Hnil). reflexivity.
    + rewrite (span_End_no_error now errs sp Hnil). reflexivity.
  - destruct (span_End_loop_calls now errs) as [before [Hloop Hfilter]].
    exists before. cbv zeta.
    assert (Hall : forall (S : Type) (I : trace.Span S) (sp : span S),
               s (span_End now errs sp) = replay (before ++ [CallEnd]) (s sp)).
    { intros S I sp. unfold span_End. cbn [s].
      rewrite replay_app, <- Hloop. reflexivity. }
    repeat split.
    + exact Hall.
    + intro sp. rewrite Hall. apply calls_replay.
    + rewrite filter_app, Hfilter. reflexivity.
Qed.

(** [End()] after [SetStatus(Ok, "")] on a recording span: the status
    stays Ok, and the one call made is End. *)
Lemma span_End_finalizes_once_witness :
  Forall noError [None; Some (@None error)]
  /\ calls (s (span_End 1700000000%Z [None; Some None]
                 (span_SetStatus codes.Ok ""
                    (Build_span (fresh sampleContext))))) =
     [CallSetStatus codes.Ok ""; CallEnd].
Proof.
  assert (Hnil : Forall noError [None; Some (@None error)]).
  { constructor; [left; reflexivity|].
    constructor; [right; reflexivity | constructor]. }
  split; [exact Hnil|].
  exact (proj1 (proj2 (proj1 (span_End_finalizes_once 1700000000%Z
                                [None; Some None]) Hnil))
           (span_SetStatus codes.Ok "" (Build_span (fresh sampleContext)))).
Defined.

(** C10: the errors [End] treats as cancellations are exactly those with
    [errors.Is(err, context.Canceled)] or with the gRPC status code
    Canceled.  An error with [errors.Is(err, context.DeadlineExceeded)]
    that is neither is a failure: the status is set to Error with the text
    of the error, and no "canceled" event is recorded. *)
Theorem span_End_deadline_exceeded (now : time.Time) (err : error) :
  errors.Is err context.DeadlineExceeded = true ->
  errors.Is err context.Canceled = false ->
  status.Code (Some err) <> grpccodes.Canceled ->
  let made := [CallSetStatus codes.Error (Error err); CallEnd] in
  (forall e : error,
      isCanceled e = true <->
      errors.Is e context.Canceled = true
      \/ status.Code (Some e) = grpccodes.Canceled)
  /\ (forall (S : Type) (I : trace.Span S) (sp : span S),
      s (span_End now [Some (Some err)] sp) = replay made (s sp))
  /\ (forall sp : span spySpan,
      calls (s (span_End now [Some (Some err)] sp)) =
      (calls (s sp) ++ made)%list)
  /\ (forall name opts, ~ In (CallAddEvent name opts) made).
Proof.
  intros _ HIs HCode made.
  pose proof (isCanceled_false err HIs HCode) as Hc.
  split; [exact isCanceled_iff|]. repeat split.
  - intros S I sp. apply span_End_one_failure, Hc.
  - intro sp. rewrite (span_End_one_failure now err sp Hc).
    apply calls_replay.
  - intros name opts [E | [E | []]]; discriminate E.
Qed.

(** A call that ran out of time: the deadline error wrapped once. *)
Lemma span_End_deadline_exceeded_witness :
  (errors.Is (fmt.Errorf_w "query: " (contextError context.DeadlineExceeded))
     context.DeadlineExceeded = true
   /\ errors.Is
        (fmt.Errorf_w "query: " (contextError context.DeadlineExceeded))
        context.Canceled = false
   /\ status.Code
        (Some (fmt.Errorf_w "query: "
                 (contextError context.DeadlineExceeded)))
      <> grpccodes.Canceled)
  /\ calls (s (span_End 1700000000%Z
                 [Some (Some (fmt.Errorf_w "query: "
                                (contextError context.DeadlineExceeded)))]
                 (Build_span (fresh sampleContext)))) =
     [CallSetStatus codes.Error "query: context deadline exceeded"; CallEnd].
Proof.
  pose (e := fmt.Errorf_w "query: " (contextError context.DeadlineExceeded)).
  assert (HD : errors.Is e context.DeadlineExceeded = true) by reflexivity.
  assert (HIs : errors.Is e context.Canceled = false) by reflexivity.
  assert (HCode : status.Code (Some e) <> grpccodes.Canceled)
    by (vm_compute; discriminate).
  split; [repeat split; assumption|].
  exact (proj1 (proj2 (proj2 (span_End_deadline_exceeded 1700000000%Z e
                                HD HIs HCode)))
           (Build_span (fresh sampleContext))).
Defined.

(* ================================================================== *)
(** * Properties of [Tag] *)

(** C5, as stated, fails for a 32-bit signed integer: the type switch has
    no case for int32, and [Tag] attaches nothing. *)
Lemma span_Tag_int32_dropped :
  specSupported (any_int32 7) = Some attribute.INT64
  /\ calls (s (span_Tag "retries" (any_int32 7)
                 (Build_span (fresh sampleContext)))) = [].
Proof. split; reflexivity. Qed.

(** C5, amended: [Tag] attaches one attribute with the given key and of
    the matching type when the dynamic type of the value is int, int64,
    string, float64, bool, []string, []int or has a String method; for a
    value of any other dynamic type (int32 and the other sized integers,
    float32, []int64, nil, ...) it makes no call and returns with the span
    as it was. *)
Theorem span_Tag_supported (key : string) (value : any) :
  (forall ty, tagSupported value = Some ty ->
     exists kv : attribute.KeyValue,
       attribute.Key kv = key
       /\ attribute.Type_of (attribute.Val kv) = ty
       /\ (forall (S : Type) (I : trace.Span S) (sp : span S),
              s (span_Tag key value sp) =
              replay [CallSetAttributes [kv]] (s sp))
       /\ (forall sp : span spySpan,
              calls (s (span_Tag key value sp)) =
              (calls (s sp) ++ [CallSetAttributes [kv]])%list))
  /\ (tagSupported value = None ->
      forall (S : Type) (I : trace.Span S) (sp : span S),
        span_Tag key value sp = sp).
Proof.
  split.
  - intros ty Hty.
    destruct value; cbn in Hty; try discriminate Hty;
      injection Hty as <-;
      eexists; (split; [|split; [|split]]);
      try (intros; cbn [span_Tag s replay fold_left perform]; reflexivity);
      reflexivity.
  - intros Hnone S I sp.
    destruct value; cbn in Hnone; try discriminate Hnone; reflexivity.
Qed.

Lemma span_Tag_supported_witness :
  tagSupported (any_int 7) = Some attribute.INT64
  /\ tagSupported (any_int32 7) = None
  /\ (exists kv : attribute.KeyValue,
        attribute.Key kv = "retries"
        /\ attribute.Type_of (attribute.Val kv) = attribute.INT64
        /\ (forall (S : Type) (I : trace.Span S) (sp : span S),
               s (span_Tag "retries" (any_int 7) sp) =
               replay [CallSetAttributes [kv]] (s sp))
        /\ (forall sp : span spySpan,
               calls (s (span_Tag "retries" (any_int 7) sp)) =
               (calls (s sp) ++ [CallSetAttributes [kv]])%list))
  /\ span_Tag "retries" (any_int32 7) (Build_span (fresh sampleContext)) =
     Build_span (fresh sampleContext).
Proof.
  split; [reflexivity|]. split; [reflexivity|]. split.
  - exact (proj1 (span_Tag_supported "retries" (any_int 7))
             attribute.INT64 eq_refl).
  - exact (proj2 (span_Tag_supported "retries" (any_int32 7))
             eq_refl spySpan spy_Span (Build_span (fresh sampleContext))).
Defined.

(* ================================================================== *)
(** * Properties of the tracer lifecycle *)

Section LifecycleFacts.
Context {Ctx : Type} (world : Collaborators Ctx).

Lemma Init_initialized ctx appName version opts (p : Process) t :
  tracer p = Some t ->
  Init world ctx appName version opts p =
  (None, Some alreadyInitialized, p).
Proof.
  intro Ht. unfold Init, bind, getTracer. rewrite Ht. reflexivity.
Qed.

(** A successful [Init]: either tracing is disabled, or it has connected
    and installed a provider. *)
Lemma Init_success_inv ctx appName version opts (p p' : Process) sd :
  Init world ctx appName version opts p = (Some sd, None, p') ->
  let options := buildOptions opts in
  tracer p = None
  /\ ((IsNoop options = true
       /\ sd = (fun _ : Ctx => ret None)
       /\ p' = {| tracer := Some (noopTracer ""); history := history p |})
      \/ (IsNoop options = false
          /\ sd = shutdown world (providerOf appName version options)
                    (Some (closeConn world (connOf options)))
          /\ p' = {| tracer :=
                       Some (otelTracer
                               (providerOf appName version options) "");
                     history :=
                       (history p ++ initEffects appName version options)
                       %list |})).
Proof.
  intro HInit. cbv zeta. revert HInit.
  unfold Init, bind, getTracer.
  destruct (tracer p) as [t|] eqn:Ht; [discriminate|].
  intro HInit. split; [reflexivity|].
  destruct (IsNoop (buildOptions opts)) eqn:Hnoop.
  - left. cbn in HInit. injection HInit as <- <-. auto.
  - right. revert HInit.
    unfold makeGrpcExporter, bind, external, ret, setTracer. cbn.
    destruct (NewClient_error world (history p) _ _); [discriminate|].
    destruct (New_error world _ ctx _); [discriminate|].
    intro HInit. injection HInit as <- <-.
    repeat split. f_equal.
    repeat rewrite <- app_assoc. reflexivity.
Qed.

(** What the shutdown closure of an enabled tracer does. *)
Lemma shutdown_run tp conn ctx (q : Process) :
  let e1 := Shutdown_error world (history q) ctx tp in
  let e2 :=
    Close_error world (history q ++ [providerShutdown tp])%list conn in
  shutdown world tp (Some (closeConn world conn)) ctx q =
  (errors.Join
     [option_map (fmt.Errorf_w "failed to shutdown tracer provider: ") e1;
      option_map (fmt.Errorf_w "failed to close tracer connection: ") e2],
   {| tracer := tracer q;
      history := (history q ++ [providerShutdown tp; connClose conn])%list
   |}).
Proof.
  cbv zeta. unfold shutdown, closeConn, bind, external, ret. cbn.
  destruct (Shutdown_error world (history q) ctx tp);
    destruct (Close_error world _ conn);
    cbn; rewrite <- app_assoc; reflexivity.
Qed.
End LifecycleFacts.

Lemma Join_nil_iff (a b : option error) :
  errors.Join [a; b] = None <-> a = None /\ b = None.
Proof.
  destruct a, b; cbn; split; intros E;
    try discriminate E; try (destruct E; discriminate); auto.
Qed.

(** C6: once [Init] has completed successfully the package variable
    [tracer] is set, the shutdown closure it returned leaves the variable
    set, and every call of [Init] on a process whose tracer is set returns
    the error "tracer already initialized" and no closure, and leaves the
    process as it was: the tracer is the same, and no option is resolved
    and no outside call (no connection attempt) is made. *)
Theorem Init_already_initialized {Ctx : Type} (world : Collaborators Ctx)
    (ctx : Ctx) (appName version : string) (opts : list Option)
    (p : Process) :
  (forall t, tracer p = Some t ->
     Init world ctx appName version opts p =
     (None, Some alreadyInitialized, p))
  /\ (forall sd p',
        Init world ctx appName version opts p = (Some sd, None, p') ->
        tracer p' <> None
        /\ (forall ctx' q, tracer (snd (sd ctx' q)) = tracer q)
        /\ (forall (world2 : Collaborators Ctx) ctx2 appName2 version2 opts2,
               Init world2 ctx2 appName2 version2 opts2 p' =
               (None, Some alreadyInitialized, p'))).
Proof.
  split.
  - intros t Ht. apply Init_initialized with t. exact Ht.
  - intros sd p' HInit.
    destruct (Init_success_inv world _ _ _ _ _ _ _ HInit)
      as [_ [[_ [-> ->]] | [_ [-> ->]]]].
    + split; [discriminate|]. split.
      * intros ctx' q. reflexivity.
      * intros. eapply Init_initialized. reflexivity.
    + split; [discriminate|]. split.
      * intros ctx' q. rewrite shutdown_run. reflexivity.
      * intros. eapply Init_initialized. reflexivity.
Qed.

(** [Init] twice with default options: the second call fails and the
    process is as the first call left it. *)
Lemma Init_already_initialized_witness :
  let p1 := snd (Init calmWorld tt "svc" "1.0" [] startProcess) in
  tracer p1 = Some (otelTracer (providerOf "svc" "1.0" (buildOptions [])) "")
  /\ Init calmWorld tt "svc" "1.1" [Noop] p1 =
     (None, Some alreadyInitialized, p1).
Proof.
  cbv zeta. split; [reflexivity|].
  exact (proj1 (Init_already_initialized calmWorld tt "svc" "1.1" [Noop]
                  (snd (Init calmWorld tt "svc" "1.0" [] startProcess)))
           _ eq_refl).
Defined.

(** C7: the closure a successful [Init] returns when tracing is enabled
    first shuts the tracer provider down and then closes the connection,
    whether or not the shutdown failed; it returns the join of the errors
    of the two steps, each wrapped with its message, which is nil exactly
    when both steps succeeded. *)
Theorem shutdown_aggregates {Ctx : Type} (world : Collaborators Ctx)
    (ctx : Ctx) (appName version : string) (opts : list Option)
    (p p' : Process) (sd : Ctx -> M (option error)) :
  IsNoop (buildOptions opts) = false ->
  Init world ctx appName version opts p = (Some sd, None, p') ->
  let tp := providerOf appName version (buildOptions opts) in
  let conn := connOf (buildOptions opts) in
  forall (ctx' : Ctx) (q : Process),
    let e1 := Shutdown_error world (history q) ctx' tp in
    let e2 :=
      Close_error world (history q ++ [providerShutdown tp])%list conn in
    history (snd (sd ctx' q)) =
    (history q ++ [providerShutdown tp; connClose conn])%list
    /\ fst (sd ctx' q) =
       errors.Join
         [option_map
            (fmt.Errorf_w "failed to shutdown tracer provider: ") e1;
          option_map
            (fmt.Errorf_w "failed to close tracer connection: ") e2]
    /\ (fst (sd ctx' q) = None <-> e1 = None /\ e2 = None).
Proof.
  intros Hnoop HInit tp conn ctx' q e1 e2.
  destruct (Init_success_inv world _ _ _ _ _ _ _ HInit)
    as [_ [[Hyes _] | [_ [-> _]]]]; [congruence|].
  fold tp conn. rewrite shutdown_run. fold e1 e2. cbn [fst snd history].
  clearbody e1 e2.
  split; [reflexivity|]. split; [reflexivity|].
  rewrite Join_nil_iff.
  destruct e1, e2; cbn; split; intros [E1 E2]; try discriminate; auto.
Qed.

(** The provider shutdown fails: the connection is closed all the same,
    and the one error comes back joined. *)
Lemma shutdown_aggregates_witness :
  let r := Init flushFails tt "svc" "1.0" [] startProcess in
  let tp := providerOf "svc" "1.0" (buildOptions []) in
  let conn := connOf (buildOptions []) in
  IsNoop (buildOptions []) = false
  /\ exists sd,
       r = (Some sd, None, snd r)
       /\ history (snd (sd tt (snd r))) =
          (history (snd r) ++ [providerShutdown tp; connClose conn])%list
       /\ fst (sd tt (snd r)) =
          Some (joinError
                  [wrapError
                     "failed to shutdown tracer provider: flush failed"
                     (errorString "flush failed")]).
Proof.
  cbv zeta. split; [reflexivity|].
  exists (shutdown flushFails (providerOf "svc" "1.0" (buildOptions []))
            (Some (closeConn flushFails (connOf (buildOptions []))))).
  split; [reflexivity|].
  pose proof (shutdown_aggregates flushFails tt "svc" "1.0" [] startProcess
                _ _ eq_refl eq_refl tt
                (snd (Init flushFails tt "svc" "1.0" [] startProcess)))
    as [Hh [Hr _]].
  split; [exact Hh | exact Hr].
Defined.

(* ================================================================== *)
(** * Properties of the dial options *)

Lemma grpcDialOptions_cases (o : Options) :
  grpcDialOptions o =
  if keepaliveSet o
  then [grpc.WithTransportCredentials grpc.insecure_NewCredentials;
        grpc.WithKeepaliveParams (keepaliveOf o)]
  else [grpc.WithTransportCredentials grpc.insecure_NewCredentials].
Proof.
  unfold grpcDialOptions, keepaliveSet, keepaliveOf.
  destruct (keepaliveTime o), (keepaliveTimeout o),
    (keepalivePermitWithoutStream o); reflexivity.
Qed.

Lemma keepaliveSet_fold (cs : list optionCall) (o : Options) :
  keepaliveSet (fold_left (fun options opt => opt options)
                  (map toOption cs) o) =
  keepaliveSet o || existsb isKeepaliveCall cs.
Proof.
  revert o. induction cs as [|c cs IH]; intro o; cbn [map fold_left existsb].
  - symmetry. apply orb_false_r.
  - rewrite IH. destruct c; unfold keepaliveSet; cbn;
      destruct (keepaliveTime o), (keepaliveTimeout o),
        (keepalivePermitWithoutStream o); reflexivity.
Qed.

Lemma keepaliveSet_buildOptions (cs : list optionCall) :
  keepaliveSet (buildOptions (map toOption cs)) =
  existsb isKeepaliveCall cs.
Proof.
  unfold buildOptions, defaultOptions.
  change ([WithCollectorHost "localhost"; WithCollectorPort 4317] ++
          map toOption cs)%list
    with (map toOption
            (callWithCollectorHost "localhost"
             :: callWithCollectorPort 4317 :: cs)).
  rewrite keepaliveSet_fold. reflexivity.
Qed.

(** C8: the dial options contain keepalive parameters if and only if one
    of the keepalive fields of the options is set, and for the options
    [Init] resolves from the option functions it is given this is so if
    and only if one of [WithKeepaliveTime], [WithKeepaliveTimeout] and
    [WithKeepalivePermitWithoutStream] is among them.  With none of them
    the dial options are the transport credentials alone, with no
    keepalive parameters, zero or other; with one of them the parameters
    are sent, whatever the value given. *)
Theorem grpcDialOptions_keepalive (cs : list optionCall) (o : Options) :
  existsb isKeepaliveParams (grpcDialOptions o) = keepaliveSet o
  /\ existsb isKeepaliveParams
       (grpcDialOptions (buildOptions (map toOption cs))) =
     existsb isKeepaliveCall cs
  /\ grpcDialOptions (buildOptions (map toOption cs)) =
     (if existsb isKeepaliveCall cs
      then [grpc.WithTransportCredentials grpc.insecure_NewCredentials;
            grpc.WithKeepaliveParams
              (keepaliveOf (buildOptions (map toOption cs)))]
      else [grpc.WithTransportCredentials grpc.insecure_NewCredentials])
  /\ grpcDialOptions (buildOptions [WithKeepaliveTime 0%Z]) =
     [grpc.WithTransportCredentials grpc.insecure_NewCredentials;
      grpc.WithKeepaliveParams keepalive.zero].
Proof.
  split; [|split; [|split]].
  - rewrite grpcDialOptions_cases. destruct (keepaliveSet o); reflexivity.
  - rewrite grpcDialOptions_cases, keepaliveSet_buildOptions.
    destruct (existsb isKeepaliveCall cs); reflexivity.
  - rewrite grpcDialOptions_cases, keepaliveSet_buildOptions. reflexivity.
  - reflexivity.
Qed.

(* ================================================================== *)
(** * Properties of [StartSpan] *)

(** C9: [StartSpan] returns a context and a span and never panics,
    whatever the context, the name and the options, and whether or not the
    package variable [tracer] is set: when it is nil the span is started
    by the no-op tracer named "noop", and otherwise by the tracer that is
    set. *)
Theorem StartSpan_returns {Ctx S : Type} {I : trace.Span S}
    (tracerStart :
       Tracer -> Ctx -> string -> list SpanStartOption -> Ctx * S)
    (p : Process) (ctx : Ctx) (name : string)
    (opts : list SpanStartOption) :
  let used :=
    match tracer p with
    | None => noopTracer "noop"
    | Some t => t
    end in
  StartSpan tracerStart p ctx name opts =
  Returns (fst (tracerStart used ctx name opts),
           Build_span (snd (tracerStart used ctx name opts)))
  /\ StartSpan tracerStart p ctx name opts <> Panics.
Proof.
  cbv zeta. unfold StartSpan, callStart.
  destruct (tracer p) as [t|].
  - destruct (tracerStart t ctx name opts) as [ctx' underlying].
    split; [reflexivity | discriminate].
  - destruct (tracerStart (noopTracer "noop") ctx name opts)
      as [ctx' underlying].
    split; [reflexivity | discriminate].
Qed.

(** Before [Init], a span is started by the no-op tracer. *)
Lemma StartSpan_returns_witness :
  StartSpan sampleStart startProcess tt "op" [] =
  Returns (tt, Build_span (fresh invalidContext)).
Proof.
  exact (proj1 (StartSpan_returns sampleStart startProcess tt "op" [])).
Defined.

(* ================================================================== *)
(** * Further properties of the options *)

Lemma fold_options_fields (cs : list optionCall) (o : Options) :
  let o' := fold_left (fun options opt => opt options) (map toOption cs) o in
  host o' = lastSupplied suppliedHost cs (host o)
  /\ port o' = lastSupplied suppliedPort cs (port o)
  /\ keepaliveTime o' =
     lastSupplied suppliedKeepaliveTime cs (keepaliveTime o)
  /\ keepaliveTimeout o' =
     lastSupplied suppliedKeepaliveTimeout cs (keepaliveTimeout o)
  /\ keepalivePermitWithoutStream o' =
     lastSupplied suppliedPermitWithoutStream cs
       (keepalivePermitWithoutStream o)
  /\ noop o' = noop o || existsb isNoopCall cs.
Proof.
  cbv zeta. revert o.
  induction cs as [|c cs IH]; intro o;
    cbn [map fold_left lastSupplied existsb].
  - rewrite orb_false_r. repeat split.
  - destruct (IH (toOption c o)) as [Hh [Hp [Ht [Hto [Hpw Hn]]]]].
    rewrite Hh, Hp, Ht, Hto, Hpw, Hn.
    destruct c; cbn; repeat split; try reflexivity.
    symmetry. apply orb_true_r.
Qed.

Lemma buildOptions_fold (cs : list optionCall) :
  buildOptions (map toOption cs) =
  fold_left (fun options opt => opt options)
    (map toOption
       (callWithCollectorHost "localhost" :: callWithCollectorPort 4317 :: cs))
    zeroOptions.
Proof. reflexivity. Qed.

Lemma IsNoop_buildOptions (cs : list optionCall) :
  IsNoop (buildOptions (map toOption cs)) = existsb isNoopCall cs.
Proof.
  rewrite buildOptions_fold. unfold IsNoop.
  destruct (fold_options_fields
              (callWithCollectorHost "localhost"
               :: callWithCollectorPort 4317 :: cs) zeroOptions)
    as [_ [_ [_ [_ [_ Hn]]]]].
  exact Hn.
Qed.

(** X1: the options [buildOptions] resolves hold, field by field, what
    the last option function that sets the field gave, and the default
    when none does: host "localhost", port 4317, no keepalive value.  The
    no-op flag is set as soon as [Noop] is among the option functions,
    wherever it stands, and no option function clears it. *)
Theorem buildOptions_last_wins (cs : list optionCall) :
  let options := buildOptions (map toOption cs) in
  host options = lastSupplied suppliedHost cs "localhost"
  /\ port options = lastSupplied suppliedPort cs 4317%N
  /\ keepaliveTime options = lastSupplied suppliedKeepaliveTime cs None
  /\ keepaliveTimeout options =
     lastSupplied suppliedKeepaliveTimeout cs None
  /\ keepalivePermitWithoutStream options =
     lastSupplied suppliedPermitWithoutStream cs None
  /\ IsNoop options = existsb isNoopCall cs.
Proof.
  cbv zeta. rewrite buildOptions_fold.
  exact (fold_options_fields
           (callWithCollectorHost "localhost"
            :: callWithCollectorPort 4317 :: cs) zeroOptions).
Qed.


(* ================================================================== *)
(** * Further properties of the tracer lifecycle *)

(** [Init] on a process whose tracer is not set, by the answers of the
    outside world. *)
Lemma Init_uninitialized {Ctx : Type} (world : Collaborators Ctx) (ctx : Ctx)
    (appName version : string) (opts : list Option) (p : Process) :
  tracer p = None ->
  let options := buildOptions opts in
  let conn := connOf options in
  let dial := grpcNewClient (GetGrpcTarget options) (grpcDialOptions options) in
  Init world ctx appName version opts p =
  if IsNoop options then
    (Some (fun _ : Ctx => ret None), None,
     {| tracer := Some (noopTracer ""); history := history p |})
  else
    match NewClient_error world (history p) (GetGrpcTarget options)
            (grpcDialOptions options) with
    | Some e =>
        (None, Some (fmt.Errorf_w "trace collector connection error: " e),
         {| tracer := None; history := (history p ++ [dial])%list |})
    | None =>
        match New_error world (history p ++ [dial; connConnect conn])%list
                ctx conn with
        | Some e =>
            (None, Some (fmt.Errorf_w "failed to create exporter: " e),
             {| tracer := None;
                history :=
                  (history p ++ [dial; connConnect conn; otlptracegrpcNew conn])
                  %list |})
        | None =>
            (Some (shutdown world (providerOf appName version options)
                     (Some (closeConn world conn))),
             None,
             {| tracer :=
                  Some (otelTracer (providerOf appName version options) "");
                history :=
                  (history p ++ initEffects appName version options)%list |})
        end
    end.
Proof.
  intro Ht. cbv zeta.
  unfold Init, makeGrpcExporter, bind, getTracer, external, ret, setTracer,
    initEffects, providerOf, connOf.
  rewrite Ht. generalize (buildOptions opts). intro options.
  destruct (IsNoop options); [reflexivity|].
  cbn [history tracer]. rewrite Ht.
  destruct (NewClient_error world (history p) _ _); [reflexivity|].
  cbn [history tracer]. rewrite <- app_assoc. cbn [app].
  destruct (New_error world _ ctx _); cbn [history tracer];
    repeat rewrite <- app_assoc; reflexivity.
Qed.

(** X3: with [Noop] among the option functions, wherever it stands,
    [Init] on a process whose tracer is not set makes no outside call (no
    connection is attempted), installs the no-op tracer and returns no
    error; the closure it returns reports no error and changes nothing. *)
Theorem Init_noop {Ctx : Type} (world : Collaborators Ctx) (ctx : Ctx)
    (appName version : string) (cs : list optionCall) (p : Process) :
  tracer p = None ->
  existsb isNoopCall cs = true ->
  exists sd : Ctx -> M (option error),
    Init world ctx appName version (map toOption cs) p =
    (Some sd, None,
     {| tracer := Some (noopTracer ""); history := history p |})
    /\ (forall (ctx' : Ctx) (q : Process), sd ctx' q = (None, q)).
Proof.
  intros Ht Hnoop.
  exists (fun _ : Ctx => ret None). split; [|reflexivity].
  rewrite (Init_uninitialized world ctx appName version _ p Ht).
  cbv zeta. rewrite IsNoop_buildOptions, Hnoop. reflexivity.
Qed.

(** [Noop] first and a collector host after it: no call leaves the
    package, though the collaborators would refuse the connection. *)
Lemma Init_noop_witness :
  (tracer startProcess = None
   /\ existsb isNoopCall [callNoop; callWithCollectorHost "collector"] = true)
  /\ exists sd : unit -> M (option error),
       Init dialFails tt "svc" "1.0"
         (map toOption [callNoop; callWithCollectorHost "collector"])
         startProcess =
       (Some sd, None, {| tracer := Some (noopTracer ""); history := [] |})
       /\ (forall (ctx' : unit) (q : Process), sd ctx' q = (None, q)).
Proof.
  split; [split; reflexivity|].
  exact (Init_noop dialFails tt "svc" "1.0"
           [callNoop; callWithCollectorHost "collector"] startProcess
           eq_refl eq_refl).
Defined.

(** X4: when tracing is enabled and [grpc.NewClient] returns an error,
    [Init] returns no closure and that error wrapped as "trace collector
    connection error: ...", which [errors.Is] still resolves to its cause;
    the dial is the only outside call made, and the tracer stays unset, so
    that [Init] may be called again. *)
Theorem Init_connection_error {Ctx : Type} (world : Collaborators Ctx)
    (ctx : Ctx) (appName version : string) (opts : list Option)
    (p : Process) (cause : error) :
  tracer p = None ->
  IsNoop (buildOptions opts) = false ->
  NewClient_error world (history p) (GetGrpcTarget (buildOptions opts))
    (grpcDialOptions (buildOptions opts)) = Some cause ->
  exists err : error,
    Init world ctx appName version opts p =
    (None, Some err,
     {| tracer := None;
        history :=
          (history p ++
           [grpcNewClient (GetGrpcTarget (buildOptions opts))
              (grpcDialOptions (buildOptions opts))])%list |})
    /\ Error err = "trace collector connection error: " ++ Error cause
    /\ (forall target, errors.Is err target = errors.Is cause target).
Proof.
  intros Ht Hnoop Hdial.
  exists (fmt.Errorf_w "trace collector connection error: " cause).
  rewrite (Init_uninitialized world ctx appName version opts p Ht).
  cbv zeta. rewrite Hnoop, Hdial. repeat split.
Qed.

Lemma Init_connection_error_witness :
  (tracer startProcess = None
   /\ IsNoop (buildOptions []) = false
   /\ NewClient_error dialFails (history startProcess)
        (GetGrpcTarget (buildOptions []))
        (grpcDialOptions (buildOptions [])) =
      Some (errors.New "bad target"))
  /\ exists err : error,
       Init dialFails tt "svc" "1.0" [] startProcess =
       (None, Some err,
        {| tracer := None;
           history :=
             [grpcNewClient "localhost:4317"
                [grpc.WithTransportCredentials grpc.insecure_NewCredentials]]
        |})
       /\ Error err = "trace collector connection error: bad target"
       /\ (forall target,
              errors.Is err target =
              errors.Is (errors.New "bad target") target).
Proof.
  split; [repeat split|].
  exact (Init_connection_error dialFails tt "svc" "1.0" [] startProcess
           (errors.New "bad target") eq_refl eq_refl eq_refl).
Defined.

(** X5: when tracing is enabled, the dial succeeds and
    [otlptracegrpc.New] returns an error, [Init] returns no closure and
    that error wrapped as "failed to create exporter: ...", and the tracer
    stays unset.  The connection was dialled and connected by then, and it
    is left open: the calls made are the dial, Connect and the exporter's
    constructor, and no Close. *)
Theorem Init_exporter_error {Ctx : Type} (world : Collaborators Ctx)
    (ctx : Ctx) (appName version : string) (opts : list Option)
    (p : Process) (cause : error) :
  let options := buildOptions opts in
  let conn := connOf options in
  let dial := grpcNewClient (GetGrpcTarget options) (grpcDialOptions options) in
  tracer p = None ->
  IsNoop options = false ->
  NewClient_error world (history p) (GetGrpcTarget options)
    (grpcDialOptions options) = None ->
  New_error world (history p ++ [dial; connConnect conn])%list ctx conn =
  Some cause ->
  exists err : error,
    Init world ctx appName version opts p =
    (None, Some err,
     {| tracer := None;
        history :=
          (history p ++ [dial; connConnect conn; otlptracegrpcNew conn])%list
     |})
    /\ Error err = "failed to create exporter: " ++ Error cause
    /\ (forall target, errors.Is err target = errors.Is cause target)
    /\ ~ In (connClose conn) [dial; connConnect conn; otlptracegrpcNew conn].
Proof.
  intros options conn dial Ht Hnoop Hdial Hnew.
  exists (fmt.Errorf_w "failed to create exporter: " cause).
  rewrite (Init_uninitialized world ctx appName version opts p Ht).
  cbv zeta. fold options. rewrite Hnoop, Hdial.
  fold conn dial. rewrite Hnew.
  split; [reflexivity|]. split; [reflexivity|]. split; [reflexivity|].
  intros [E | [E | [E | []]]]; discriminate E.
Qed.

(** The exporter cannot be created because the context was cancelled:
    [errors.Is] finds the cancellation in the error [Init] returns. *)
Lemma Init_exporter_error_witness :
  exists err : error,
    Init exporterFails tt "svc" "1.0" [] startProcess =
    (None, Some err,
     {| tracer := None;
        history :=
          [grpcNewClient "localhost:4317"
             [grpc.WithTransportCredentials grpc.insecure_NewCredentials];
           connConnect (connOf (buildOptions []));
           otlptracegrpcNew (connOf (buildOptions []))] |})
    /\ Error err = "failed to create exporter: context canceled"
    /\ errors.Is err context.Canceled = true.
Proof.
  destruct (Init_exporter_error exporterFails tt "svc" "1.0" [] startProcess
              (contextError context.Canceled)
              eq_refl eq_refl eq_refl eq_refl)
    as [err [HInit [HText [HIs _]]]].
  exists err. split; [exact HInit|]. split; [exact HText|].
  rewrite HIs. reflexivity.
Defined.

(** The first three parts of the result shape, for a result with a
    closure and for a result with an error. *)
Ltac refute_nil_not_nil :=
  let E := fresh "E" in intro E; exfalso; apply E; reflexivity.

Ltac Init_succeeded :=
  split; [split; [discriminate | refute_nil_not_nil]|];
  split; [refute_nil_not_nil|];
  split; [intros _; split; [reflexivity | discriminate]|].

Ltac Init_failed :=
  split; [split; [intros _; discriminate | reflexivity]|];
  split; [reflexivity|];
  split; [discriminate|].

(** X6: [Init] returns either a closure and no error, or an error and no
    closure.  When it returns an error the package variable [tracer] is
    as it was; when it returns none the tracer was unset before and is
    set after.  In both cases the calls made before are still on record,
    in order, before the new ones. *)
Theorem Init_result_shape {Ctx : Type} (world : Collaborators Ctx)
    (ctx : Ctx) (appName version : string) (opts : list Option)
    (p : Process) :
  let r := Init world ctx appName version opts p in
  (fst (fst r) = None <-> snd (fst r) <> None)
  /\ (snd (fst r) <> None -> tracer (snd r) = tracer p)
  /\ (snd (fst r) = None -> tracer p = None /\ tracer (snd r) <> None)
  /\ (exists added, history (snd r) = (history p ++ added)%list).
Proof.
  cbv zeta. destruct (tracer p) as [t|] eqn:Ht.
  - rewrite (Init_initialized world ctx appName version opts p t Ht).
    cbn [fst snd]. split; [split; [discriminate | reflexivity]|].
    split; [intros _; exact Ht|]. split; [discriminate|].
    exists []. symmetry. apply app_nil_r.
  - rewrite (Init_uninitialized world ctx appName version opts p Ht).
    cbv zeta.
    destruct (IsNoop (buildOptions opts));
      [|destruct (NewClient_error world (history p) _ _);
        [|destruct (New_error world _ ctx _)]];
      cbn [fst snd tracer history].
    + Init_succeeded. exists []. symmetry. apply app_nil_r.
    + Init_failed. eexists. reflexivity.
    + Init_failed. eexists. reflexivity.
    + Init_succeeded. eexists. reflexivity.
Qed.

(** X7: the error the shutdown closure returns keeps its causes:
    [errors.Is] finds a sentinel in it exactly when it finds the sentinel
    in the error of the provider shutdown or in the error of the
    connection close. *)
Theorem shutdown_error_causes {Ctx : Type} (world : Collaborators Ctx)
    (ctx : Ctx) (appName version : string) (opts : list Option)
    (p p' : Process) (sd : Ctx -> M (option error)) :
  IsNoop (buildOptions opts) = false ->
  Init world ctx appName version opts p = (Some sd, None, p') ->
  let tp := providerOf appName version (buildOptions opts) in
  let conn := connOf (buildOptions opts) in
  forall (ctx' : Ctx) (q : Process) (target : context.sentinel),
    errorIs (fst (sd ctx' q)) target =
    errorIs (Shutdown_error world (history q) ctx' tp) target
    || errorIs
         (Close_error world (history q ++ [providerShutdown tp])%list conn)
         target.
Proof.
  intros Hnoop HInit tp conn ctx' q target.
  destruct (Init_success_inv world _ _ _ _ _ _ _ HInit)
    as [_ [[Hyes _] | [_ [-> _]]]]; [congruence|].
  fold tp conn. rewrite shutdown_run. cbn [fst].
  destruct (Shutdown_error world (history q) ctx' tp);
    destruct (Close_error world _ conn); cbn;
    rewrite ?orb_false_r; reflexivity.
Qed.

Lemma shutdown_error_causes_witness :
  let r := Init bothFail tt "svc" "1.0" [] startProcess in
  IsNoop (buildOptions []) = false
  /\ exists sd,
       r = (Some sd, None, snd r)
       /\ errorIs (fst (sd tt (snd r))) context.DeadlineExceeded = true
       /\ errorIs (fst (sd tt (snd r))) context.Canceled = false.
Proof.
  cbv zeta. split; [reflexivity|].
  exists (shutdown bothFail (providerOf "svc" "1.0" (buildOptions []))
            (Some (closeConn bothFail (connOf (buildOptions []))))).
  split; [reflexivity|].
  pose proof (shutdown_error_causes bothFail tt "svc" "1.0" [] startProcess
                _ _ eq_refl eq_refl tt
                (snd (Init bothFail tt "svc" "1.0" [] startProcess)))
    as Hcauses.
  split; [exact (Hcauses context.DeadlineExceeded)
         | exact (Hcauses context.Canceled)].
Defined.

(** X8: after [Init] on a process whose tracer was not set, [StartSpan]
    starts its spans on the tracer [Init] installed: the no-op tracer
    named "" when [Noop] was among the option functions, the tracer of the
    new provider when tracing is enabled and [Init] succeeded.  After an
    [Init] that returned an error it falls back to the no-op tracer named
    "noop", as before any [Init]. *)
Theorem StartSpan_after_Init {Ctx S : Type} {I : trace.Span S}
    (tracerStart :
       Tracer -> Ctx -> string -> list SpanStartOption -> Ctx * S)
    (world : Collaborators Ctx) (ctx : Ctx) (appName version : string)
    (cs : list optionCall) (p : Process) :
  tracer p = None ->
  let r := Init world ctx appName version (map toOption cs) p in
  let used :=
    match snd (fst r) with
    | Some _ => noopTracer "noop"
    | None =>
        if existsb isNoopCall cs then noopTracer ""
        else otelTracer
               (providerOf appName version (buildOptions (map toOption cs)))
               ""
    end in
  forall (ctx' : Ctx) (name : string) (opts : list SpanStartOption),
    StartSpan tracerStart (snd r) ctx' name opts =
    Returns (fst (tracerStart used ctx' name opts),
             Build_span (snd (tracerStart used ctx' name opts))).
Proof.
  intros Ht. cbv zeta.
  rewrite (Init_uninitialized world ctx appName version _ p Ht).
  cbv zeta. rewrite IsNoop_buildOptions.
  intros ctx' name opts. unfold StartSpan, callStart.
  destruct (existsb isNoopCall cs);
    [|destruct (NewClient_error world (history p) _ _);
      [|destruct (New_error world _ ctx _)]];
    cbn [fst snd tracer];
    match goal with
    | |- context [tracerStart ?t ctx' name opts] =>
        destruct (tracerStart t ctx' name opts); reflexivity
    end.
Qed.

(** After a refused connection, spans are started on the no-op tracer. *)
Lemma StartSpan_after_Init_witness :
  tracer startProcess = None
  /\ StartSpan sampleStart
       (snd (Init dialFails tt "svc" "1.0" (map toOption []) startProcess))
       tt "op" [] =
     Returns (tt, Build_span (fresh invalidContext)).
Proof.
  split; [reflexivity|].
  exact (StartSpan_after_Init sampleStart dialFails tt "svc" "1.0" []
           startProcess eq_refl tt "op" []).
Defined.

(* ================================================================== *)
(** * Further properties of [End] *)

Lemma isCanceled_wrap (prefix : string) (err : error) :
  isCanceled (fmt.Errorf_w prefix err) = isCanceled err.
Proof. reflexivity. Qed.

(** X9: [End] treats an error wrapped by [fmt.Errorf] with the verb %w
    as it treats the wrapped error: a wrapped cancellation is a
    cancellation, and a wrapped failure is a failure, with the text of the
    wrapper, prefix included, as the description of the status. *)
Theorem span_End_wrapped (now : time.Time) (prefix : string) (err : error) :
  isCanceled (fmt.Errorf_w prefix err) = isCanceled err
  /\ forall (S : Type) (I : trace.Span S) (sp : span S),
       s (span_End now [Some (Some (fmt.Errorf_w prefix err))] sp) =
       replay
         (if isCanceled err
          then [CallAddEvent "canceled" [trace.WithTimestamp now]; CallEnd]
          else [CallSetStatus codes.Error (prefix ++ Error err); CallEnd])
         (s sp).
Proof.
  split; [apply isCanceled_wrap|].
  intros S I sp. destruct (isCanceled err) eqn:Hc.
  - apply span_End_one_canceled. rewrite isCanceled_wrap. exact Hc.
  - apply (span_End_one_failure now (fmt.Errorf_w prefix err) sp).
    rewrite isCanceled_wrap. exact Hc.
Qed.

Lemma Join_members (errs : list (option error)) (j : error) :
  errors.Join errs = Some j ->
  exists es, j = joinError es /\ forall e, In (Some e) errs -> In e es.
Proof.
  unfold errors.Join.
  set (es := flat_map _ errs).
  assert (Hin : forall e, In (Some e) errs -> In e es).
  { intros e He. apply in_flat_map. exists (Some e).
    split; [exact He | left; reflexivity]. }
  destruct es as [|e0 es']; [discriminate|].
  intro E. injection E as <-. eexists. split; [reflexivity | exact Hin].
Qed.

(** X10: an error built by [errors.Join] is a cancellation for [End] as
    soon as one of the joined errors is a context cancellation, whatever
    the others are: [End] records the event "canceled" and sets no
    status, so a failure joined with a cancellation is not reported as
    Error. *)
Theorem span_End_joined_cancellation (now : time.Time)
    (errs : list (option error)) (joined member : error) :
  errors.Join errs = Some joined ->
  In (Some member) errs ->
  errors.Is member context.Canceled = true ->
  forall (S : Type) (I : trace.Span S) (sp : span S),
    s (span_End now [Some (Some joined)] sp) =
    replay [CallAddEvent "canceled" [trace.WithTimestamp now]; CallEnd]
      (s sp).
Proof.
  intros HJoin HIn HIs S I sp.
  destruct (Join_members errs joined HJoin) as [es [-> Hes]].
  apply span_End_one_canceled, isCanceled_iff. left.
  cbn [errors.Is]. apply existsb_exists.
  exists member. split; [apply Hes, HIn | exact HIs].
Qed.

Lemma span_End_joined_cancellation_witness :
  let errs :=
    [Some (errors.New "write failed"); None;
     Some (fmt.Errorf_w "read: " (contextError context.Canceled))] in
  (errors.Join errs =
   Some (joinError
           [errors.New "write failed";
            fmt.Errorf_w "read: " (contextError context.Canceled)])
   /\ In (Some (fmt.Errorf_w "read: " (contextError context.Canceled))) errs
   /\ errors.Is (fmt.Errorf_w "read: " (contextError context.Canceled))
        context.Canceled = true)
  /\ calls (s (span_End 1700000000%Z
                 [Some (errors.Join errs)]
                 (Build_span (fresh sampleContext)))) =
     [CallAddEvent "canceled" [trace.WithTimestamp 1700000000%Z]; CallEnd].
Proof.
  cbv zeta.
  assert (HIn :
    In (Some (fmt.Errorf_w "read: " (contextError context.Canceled)))
       [Some (errors.New "write failed"); None;
        Some (fmt.Errorf_w "read: " (contextError context.Canceled))])
    by (right; right; left; reflexivity).
  split; [split; [reflexivity | split; [exact HIn | reflexivity]]|].
  exact (f_equal calls
           (span_End_joined_cancellation 1700000000%Z
              [Some (errors.New "write failed"); None;
               Some (fmt.Errorf_w "read: " (contextError context.Canceled))]
              (joinError
                 [errors.New "write failed";
                  fmt.Errorf_w "read: " (contextError context.Canceled)])
              (fmt.Errorf_w "read: " (contextError context.Canceled))
              eq_refl HIn eq_refl spySpan spy_Span
              (Build_span (fresh sampleContext)))).
Defined.

(** X11: on a recording span that has not ended and keeps the
    precedence the [Span] interface documents (Ok > Error > Unset), a
    status Ok set through the facade stands: [End] with an error, be it a
    failure or a cancellation, does not replace it. *)
Theorem span_End_keeps_Ok (now : time.Time) (err : error)
    (description : string) (sp : span recordingSpan) :
  ended (s sp) = false ->
  spanStatus
    (s (span_End now [Some (Some err)]
          (span_SetStatus codes.Ok description sp))) =
  {| StatusCode := codes.Ok; Description := "" |}.
Proof.
  intro Hopen.
  assert (HOk :
    s (span_SetStatus codes.Ok description sp) =
    {| rec_context := rec_context (s sp); attributes := attributes (s sp);
       events := events (s sp);
       spanStatus := {| StatusCode := codes.Ok; Description := "" |};
       ended := false |}).
  { cbn. unfold rec_SetStatus. rewrite Hopen.
    destruct (StatusCode (spanStatus (s sp))); reflexivity. }
  destruct (isCanceled err) eqn:Hc.
  - rewrite (span_End_one_canceled now err _ Hc), HOk. reflexivity.
  - rewrite (span_End_one_failure now err _ Hc), HOk. reflexivity.
Qed.

Lemma span_End_keeps_Ok_witness :
  ended startedSpan = false
  /\ spanStatus
       (s (span_End 1700000000%Z [Some (Some (errors.New "boom"))]
             (span_SetStatus codes.Ok "done" (Build_span startedSpan)))) =
     {| StatusCode := codes.Ok; Description := "" |}.
Proof.
  split; [reflexivity|].
  exact (span_End_keeps_Ok 1700000000%Z (errors.New "boom") "done"
           (Build_span startedSpan) eq_refl).
Defined.

(* ================================================================== *)
(** * From the option functions to the dial *)

(** X12: when tracing is enabled, the first outside call of [Init] on a
    process whose tracer is not set is the dial of the collector, and its
    target is the last host supplied ("localhost" when none was), a colon
    and the decimal digits of the last port supplied (4317 when none
    was), whatever the call and the ones after it answer. *)
Theorem Init_dials_target {Ctx : Type} (world : Collaborators Ctx)
    (ctx : Ctx) (appName version : string) (cs : list optionCall)
    (p : Process) :
  tracer p = None ->
  existsb isNoopCall cs = false ->
  let options := buildOptions (map toOption cs) in
  let target :=
    lastSupplied suppliedHost cs "localhost" ++ ":" ++
    NilZero.string_of_uint (N.to_uint (lastSupplied suppliedPort cs 4317%N)) in
  exists rest : list Effect,
    history (snd (Init world ctx appName version (map toOption cs) p)) =
    (history p ++ grpcNewClient target (grpcDialOptions options) :: rest)%list.
Proof.
  intros Ht Hnoop. cbv zeta.
  assert (HTarget :
    GetGrpcTarget (buildOptions (map toOption cs)) =
    lastSupplied suppliedHost cs "localhost" ++ ":" ++
    NilZero.string_of_uint (N.to_uint (lastSupplied suppliedPort cs 4317%N))).
  { unfold GetGrpcTarget. rewrite buildOptions_fold.
    destruct (fold_options_fields
                (callWithCollectorHost "localhost"
                 :: callWithCollectorPort 4317 :: cs) zeroOptions)
      as [Hh [Hp _]].
    rewrite Hh, Hp. reflexivity. }
  rewrite (Init_uninitialized world ctx appName version _ p Ht).
  cbv zeta. rewrite IsNoop_buildOptions, Hnoop, HTarget.
  destruct (NewClient_error world (history p) _ _);
    [|destruct (New_error world _ ctx _)];
    cbn [snd history]; unfold initEffects; rewrite ?HTarget;
    eexists; reflexivity.
Qed.

(** Two hosts and one port supplied: the dial goes to the second host. *)
Lemma Init_dials_target_witness :
  let cs :=
    [callWithCollectorHost "first"; callWithCollectorPort 4318;
     callWithCollectorHost "second"] in
  (tracer startProcess = None /\ existsb isNoopCall cs = false)
  /\ exists rest : list Effect,
       history (snd (Init calmWorld tt "svc" "1.0" (map toOption cs)
                       startProcess)) =
       grpcNewClient "second:4318"
         (grpcDialOptions (buildOptions (map toOption cs))) :: rest.
Proof.
  cbv zeta. split; [split; reflexivity|].
  exact (Init_dials_target calmWorld tt "svc" "1.0"
           [callWithCollectorHost "first"; callWithCollectorPort 4318;
            callWithCollectorHost "second"]
           startProcess eq_refl eq_refl).
Defined.
